(** * Rubik's cube engine: facelet state, move engine, scrambler, solver,
      session manager and the canvas component's move table.

    A shallow embedding of [src/lib/cube-solver.ts] (class
    [RubiksCubeSolver], the revision whose [rotateAdjacentFaces] wires up all
    six faces), of [src/lib/cube-state-manager.ts] (class [CubeStateManager])
    and of the [applyMove] callback of the canvas component [RubiksCube3D].

    Conventions of the embedding:
    - a JavaScript string is a [string] (a sequence of code units);
    - a [CubeState] has the shape its type and [SOLVED_STATE] declare: six
      faces, each three rows of three colours;  every array index in the
      source is a literal 0, 1 or 2 (0..8 in the component), so indices are
      an enumerated type and no access is out of range;
    - [JSON.parse(JSON.stringify(x))] is a deep copy: in a value semantics it
      is the identity;
    - a JavaScript exception is the [Throw] case of [Result]. *)

From Stdlib Require Import String Ascii List Bool Arith PeanoNat ZArith QArith Qminmax
  DecimalString Lia.
Import ListNotations.
Close Scope Q_scope.
Close Scope Z_scope.
Local Open Scope string_scope.
Local Open Scope list_scope.

Set Implicit Arguments.

(* ------------------------------------------------------------------ *)
(** ** Exceptions *)

Inductive Error : Type :=
| TypeError.   (* reading a property of [undefined] *)

Inductive Result (A : Type) : Type :=
| Ok (a : A)
| Throw (e : Error).

Arguments Ok {A} a.
Arguments Throw {A} e.

Definition bindR {A B} (r : Result A) (k : A -> Result B) : Result B :=
  match r with
  | Ok a => k a
  | Throw e => Throw e
  end.

Notation "x <- r ;; k" := (bindR r (fun x => k))
  (at level 61, r at next level, right associativity).

(* ------------------------------------------------------------------ *)
(** ** JavaScript string primitives used by the engine *)

(** [s.charAt(i)]: the one-unit string at [i], or the empty string. *)
Definition charAt (i : nat) (s : string) : string :=
  match String.get i s with
  | Some a => String a EmptyString
  | None => EmptyString
  end.

(** [s.slice(start)] for [0 <= start]. *)
Definition slice (start : nat) (s : string) : string :=
  String.substring start (String.length s - start) s.

(* ------------------------------------------------------------------ *)
(** ** Arrays of three *)

Inductive Ix : Type := i0 | i1 | i2.

Record Row (A : Type) : Type := mkRow { x0 : A; x1 : A; x2 : A }.

Definition get {A} (i : Ix) (r : Row A) : A :=
  match i with i0 => x0 r | i1 => x1 r | i2 => x2 r end.

Definition set {A} (i : Ix) (v : A) (r : Row A) : Row A :=
  match i with
  | i0 => mkRow v (x1 r) (x2 r)
  | i1 => mkRow (x0 r) v (x2 r)
  | i2 => mkRow (x0 r) (x1 r) v
  end.

Definition indices : list Ix := [i0; i1; i2].

Definition row_to_list {A} (r : Row A) : list A := [x0 r; x1 r; x2 r].

Module RubiksCubeSolver.

(** [type Face = "U" | ...] and [type Move = string] are erased at run time:
    both are arbitrary strings. *)
Definition Face := string.
Definition Move := string.

Inductive Color : Type := white | yellow | red | orange | blue | green.

Definition Color_eq_dec (a b : Color) : {a = b} + {a <> b}.
Proof. decide equality. Defined.

Definition Color_eqb (a b : Color) : bool :=
  if Color_eq_dec a b then true else false.

Definition Grid := Row (Row Color).

Record Faces : Type := mkFaces
  { U : Grid; D : Grid; L : Grid; R : Grid; F : Grid; B : Grid }.

Record CubeState : Type := mkCube { faces : Faces }.

(** The six own keys of [state.faces]. *)
Inductive FaceKey : Type := kU | kD | kL | kR | kF | kB.

Definition keys : list FaceKey := [kU; kD; kL; kR; kF; kB].

(** [state.faces[face]] for a run-time string: [None] is [undefined]. *)
Definition faceKey (face : string) : option FaceKey :=
  if face =? "U" then Some kU
  else if face =? "D" then Some kD
  else if face =? "L" then Some kL
  else if face =? "R" then Some kR
  else if face =? "F" then Some kF
  else if face =? "B" then Some kB
  else None.

Definition keyName (k : FaceKey) : string :=
  match k with
  | kU => "U" | kD => "D" | kL => "L" | kR => "R" | kF => "F" | kB => "B"
  end.

Definition grid (k : FaceKey) (s : CubeState) : Grid :=
  match k with
  | kU => U (faces s) | kD => D (faces s) | kL => L (faces s)
  | kR => R (faces s) | kF => F (faces s) | kB => B (faces s)
  end.

Definition setGrid (k : FaceKey) (g : Grid) (s : CubeState) : CubeState :=
  let f := faces s in
  match k with
  | kU => mkCube (mkFaces g (D f) (L f) (R f) (F f) (B f))
  | kD => mkCube (mkFaces (U f) g (L f) (R f) (F f) (B f))
  | kL => mkCube (mkFaces (U f) (D f) g (R f) (F f) (B f))
  | kR => mkCube (mkFaces (U f) (D f) (L f) g (F f) (B f))
  | kF => mkCube (mkFaces (U f) (D f) (L f) (R f) g (B f))
  | kB => mkCube (mkFaces (U f) (D f) (L f) (R f) (F f) g)
  end.

(** [faces.K[r]] and [faces.K[r] = row]. *)
Definition getr (k : FaceKey) (r : Ix) (s : CubeState) : Row Color :=
  get r (grid k s).

Definition setr (k : FaceKey) (r : Ix) (v : Row Color) (s : CubeState)
  : CubeState :=
  setGrid k (set r v (grid k s)) s.

(** [faces.K[r][c]] and [faces.K[r][c] = v]. *)
Definition getc (k : FaceKey) (r c : Ix) (s : CubeState) : Color :=
  get c (getr k r s).

Definition setc (k : FaceKey) (r c : Ix) (v : Color) (s : CubeState)
  : CubeState :=
  setr k r (set c v (getr k r s)) s.

Definition uniform (c : Color) : Grid :=
  mkRow (mkRow c c c) (mkRow c c c) (mkRow c c c).

Definition SOLVED_STATE : CubeState :=
  mkCube (mkFaces (uniform white) (uniform yellow) (uniform orange)
                  (uniform red) (uniform green) (uniform blue)).

Definition createSolvedCube : CubeState := SOLVED_STATE.

(** [rotateAdjacentFaces]: the [switch (face)] over the run-time string, with
    its [default] branch (a console warning, no state change). *)
Definition rotateAdjacentFaces (state : CubeState) (face : Face) : CubeState :=
  if face =? "R" then
    let tempR := mkRow (getc kU i0 i2 state) (getc kU i1 i2 state)
                       (getc kU i2 i2 state) in
    let state := setc kU i0 i2 (getc kF i0 i2 state) state in
    let state := setc kU i1 i2 (getc kF i1 i2 state) state in
    let state := setc kU i2 i2 (getc kF i2 i2 state) state in
    let state := setc kF i0 i2 (getc kD i0 i2 state) state in
    let state := setc kF i1 i2 (getc kD i1 i2 state) state in
    let state := setc kF i2 i2 (getc kD i2 i2 state) state in
    let state := setc kD i0 i2 (getc kB i2 i0 state) state in
    let state := setc kD i1 i2 (getc kB i1 i0 state) state in
    let state := setc kD i2 i2 (getc kB i0 i0 state) state in
    let state := setc kB i0 i0 (get i2 tempR) state in
    let state := setc kB i1 i0 (get i1 tempR) state in
    let state := setc kB i2 i0 (get i0 tempR) state in
    state
  else if face =? "U" then
    let tempU := getr kF i0 state in
    let state := setr kF i0 (getr kR i0 state) state in
    let state := setr kR i0 (getr kB i0 state) state in
    let state := setr kB i0 (getr kL i0 state) state in
    let state := setr kL i0 tempU state in
    state
  else if face =? "F" then
    let tempF := mkRow (getc kU i2 i0 state) (getc kU i2 i1 state)
                       (getc kU i2 i2 state) in
    let state := setc kU i2 i0 (getc kL i2 i2 state) state in
    let state := setc kU i2 i1 (getc kL i1 i2 state) state in
    let state := setc kU i2 i2 (getc kL i0 i2 state) state in
    let state := setc kL i0 i2 (getc kD i0 i0 state) state in
    let state := setc kL i1 i2 (getc kD i0 i1 state) state in
    let state := setc kL i2 i2 (getc kD i0 i2 state) state in
    let state := setc kD i0 i0 (getc kR i2 i0 state) state in
    let state := setc kD i0 i1 (getc kR i1 i0 state) state in
    let state := setc kD i0 i2 (getc kR i0 i0 state) state in
    let state := setc kR i0 i0 (get i0 tempF) state in
    let state := setc kR i1 i0 (get i1 tempF) state in
    let state := setc kR i2 i0 (get i2 tempF) state in
    state
  else if face =? "L" then
    let tempL := mkRow (getc kU i0 i0 state) (getc kU i1 i0 state)
                       (getc kU i2 i0 state) in
    let state := setc kU i0 i0 (getc kB i2 i2 state) state in
    let state := setc kU i1 i0 (getc kB i1 i2 state) state in
    let state := setc kU i2 i0 (getc kB i0 i2 state) state in
    let state := setc kB i0 i2 (getc kD i2 i0 state) state in
    let state := setc kB i1 i2 (getc kD i1 i0 state) state in
    let state := setc kB i2 i2 (getc kD i0 i0 state) state in
    let state := setc kD i0 i0 (getc kF i0 i0 state) state in
    let state := setc kD i1 i0 (getc kF i1 i0 state) state in
    let state := setc kD i2 i0 (getc kF i2 i0 state) state in
    let state := setc kF i0 i0 (get i0 tempL) state in
    let state := setc kF i1 i0 (get i1 tempL) state in
    let state := setc kF i2 i0 (get i2 tempL) state in
    state
  else if face =? "D" then
    let tempD := getr kF i2 state in
    let state := setr kF i2 (getr kL i2 state) state in
    let state := setr kL i2 (getr kB i2 state) state in
    let state := setr kB i2 (getr kR i2 state) state in
    let state := setr kR i2 tempD state in
    state
  else if face =? "B" then
    let tempB := mkRow (getc kU i0 i0 state) (getc kU i0 i1 state)
                       (getc kU i0 i2 state) in
    let state := setc kU i0 i0 (getc kR i0 i2 state) state in
    let state := setc kU i0 i1 (getc kR i1 i2 state) state in
    let state := setc kU i0 i2 (getc kR i2 i2 state) state in
    let state := setc kR i0 i2 (getc kD i2 i2 state) state in
    let state := setc kR i1 i2 (getc kD i2 i1 state) state in
    let state := setc kR i2 i2 (getc kD i2 i0 state) state in
    let state := setc kD i2 i2 (getc kL i2 i0 state) state in
    let state := setc kD i2 i1 (getc kL i1 i0 state) state in
    let state := setc kD i2 i0 (getc kL i0 i0 state) state in
    let state := setc kL i0 i0 (get i2 tempB) state in
    let state := setc kL i1 i0 (get i1 tempB) state in
    let state := setc kL i2 i0 (get i0 tempB) state in
    state
  else state.

(** [rotateFace]: [faceMatrix] aliases [state.faces[face]], so the
    assignments through it are assignments to the state.  For a string that
    is not a key of [state.faces], [faceMatrix] is [undefined] and
    [faceMatrix[0]] raises a TypeError before anything is written. *)
Definition rotateFace (state : CubeState) (face : Face) : Result CubeState :=
  match faceKey face with
  | None => Throw TypeError
  | Some faceMatrix =>
    let temp := getc faceMatrix i0 i0 state in
    let state := setc faceMatrix i0 i0 (getc faceMatrix i2 i0 state) state in
    let state := setc faceMatrix i2 i0 (getc faceMatrix i2 i2 state) state in
    let state := setc faceMatrix i2 i2 (getc faceMatrix i0 i2 state) state in
    let state := setc faceMatrix i0 i2 temp state in
    let temp2 := getc faceMatrix i0 i1 state in
    let state := setc faceMatrix i0 i1 (getc faceMatrix i1 i0 state) state in
    let state := setc faceMatrix i1 i0 (getc faceMatrix i2 i1 state) state in
    let state := setc faceMatrix i2 i1 (getc faceMatrix i1 i2 state) state in
    let state := setc faceMatrix i1 i2 temp2 state in
    Ok (rotateAdjacentFaces state face)
  end.

(** The loop [for (i = 0; i < rotations; i++) this.rotateFace(newState, face)]. *)
Fixpoint rotateTimes (rotations : nat) (state : CubeState) (face : Face)
  : Result CubeState :=
  match rotations with
  | O => Ok state
  | S n => state' <- rotateFace state face ;; rotateTimes n state' face
  end.

Definition rotationsOf (modifier : string) : nat :=
  if modifier =? "'" then 3
  else if modifier =? "2" then 2
  else 1.

Definition applyMove (state : CubeState) (move : Move) : Result CubeState :=
  let newState := state in
  let face := charAt 0 move in
  let modifier := slice 1 move in
  let rotations := rotationsOf modifier in
  rotateTimes rotations newState face.

(** Replaying a list of moves, one [applyMove] at a time. *)
Fixpoint applyMoves (state : CubeState) (moves : list Move)
  : Result CubeState :=
  match moves with
  | [] => Ok state
  | m :: ms => state' <- applyMove state m ;; applyMoves state' ms
  end.

Definition possibleMoves : list Move :=
  [ "R"; "R'"; "R2"; "L"; "L'"; "L2"; "U"; "U'"; "U2";
    "D"; "D'"; "D2"; "F"; "F'"; "F2"; "B"; "B'"; "B2" ].

(* ---------------- Scrambler ---------------- *)

Definition isOppositeMove (move1 move2 : Move) : bool :=
  let base1 := charAt 0 move1 in
  let base2 := charAt 0 move2 in
  base1 =? base2.

(** The outcome of code that consumes random numbers: [Starved] is the
    artefact of feeding it a finite list of draws that ran out. *)
Inductive Outcome (A : Type) : Type :=
| Returns (a : A)
| Raises (e : Error)
| Starved.

Arguments Returns {A} a.
Arguments Raises {A} e.
Arguments Starved {A}.

(** The body of [scrambleCube]: the [for] loop with [remaining = moves - i]
    iterations to go, and inside it the [do ... while] rejection loop.  Each
    element of [draws] is one value of
    [Math.floor(Math.random() * possibleMoves.length)]; as [Math.random()] is
    in [0,1) a draw is below 18.  (For a draw outside the table the move is
    [undefined] and both [isOppositeMove] and [applyMove] raise a TypeError
    on [move.charAt].) *)
Fixpoint scrambleLoop (remaining : nat) (state : CubeState)
         (scramble : list Move) (draws : list nat)
  : Outcome (CubeState * list Move) :=
  match remaining with
  | O => Returns (state, scramble)
  | S remaining' =>
    match draws with
    | [] => Starved
    | d :: draws' =>
      match nth_error possibleMoves d with
      | None => Raises TypeError
      | Some move =>
        if (0 <? length scramble)%nat && isOppositeMove (last scramble "") move
        then scrambleLoop remaining state scramble draws'
        else
          match applyMove state move with
          | Throw e => Raises e
          | Ok state' =>
            scrambleLoop remaining' state' (scramble ++ [move]) draws'
          end
      end
    end
  end.

Definition scrambleCube (moves : nat) (draws : list nat)
  : Outcome (CubeState * list Move) :=
  scrambleLoop moves createSolvedCube [] draws.

(* ---------------- Solver ---------------- *)

Record SolutionStep : Type := mkStep
  { move : Move; description : string; layer : string }.

Inductive Difficulty : Type := Easy | Medium | Hard.

Record CubeAnalysis : Type := mkAnalysis
  { edgesOriented : bool;
    cornersPositioned : bool;
    edgesPermuted : bool;
    cornersOriented : bool;
    solvedFaces : nat;
    scrambleLevel : Q }.

(** [Omit<SolutionResult, 'solutionTime'>].  The two numbers the source
    computes in double arithmetic ([estimatedTime], [scrambleLevel]) are kept
    as exact rationals; they are reported and never tested. *)
Record KociembaResult : Type := mkKociemba
  { k_steps : list SolutionStep;
    k_totalMoves : nat;
    k_estimatedTime : Q;
    k_difficulty : Difficulty;
    k_algorithm : string;
    k_phase1Moves : nat;
    k_phase2Moves : nat }.

Record SolutionResult : Type := mkSolution
  { steps : list SolutionStep;
    totalMoves : nat;
    estimatedTime : Q;
    difficulty : Difficulty;
    algorithm : string;
    phase1Moves : nat;
    phase2Moves : nat;
    solutionTime : nat }.

(** Console output, one constructor per [console.log] site of the solver. *)
Inductive LogEvent : Type :=
| LogStartTwoPhase                       (* solveCube *)
| LogSolution (totalMoves : nat)         (* solveCube, after the search *)
| LogSolverStart                         (* kociembaAlgorithm *)
| LogAnalysis (a : CubeAnalysis)
| LogKociembaComplete (p1 p2 total : nat)
| LogPhase1Start
| LogPhase1Complete (n : nat)
| LogPhase2Start
| LogPhase2Complete (n : nat).

(** Console output so far, and a value or an exception. *)
Definition W (A : Type) : Type := (list LogEvent * Result A)%type.

Definition retW {A} (a : A) : W A := ([], Ok a).

Definition bindW {A B} (m : W A) (k : A -> W B) : W B :=
  match m with
  | (l, Ok a) => let (l', r) := k a in (l ++ l', r)
  | (l, Throw e) => (l, Throw e)
  end.

Definition log (e : LogEvent) : W unit := ([e], Ok tt).

Definition liftR {A} (r : Result A) : W A := ([], r).

Notation "x <-- m ;;; k" := (bindW m (fun x => k))
  (at level 61, m at next level, right associativity).
Notation "m ;;; k" := (bindW m (fun _ => k))
  (at level 61, right associativity).

Definition colorName (c : Color) : string :=
  match c with
  | white => "white" | yellow => "yellow" | red => "red"
  | orange => "orange" | blue => "blue" | green => "green"
  end.

(** [Array.prototype.sort()] with the default comparison (code-unit order of
    the strings) and [join('')]. *)
Fixpoint insertSorted (x : string) (l : list string) : list string :=
  match l with
  | [] => [x]
  | y :: t => if String.leb x y then x :: l else y :: insertSorted x t
  end.

Definition sort (l : list string) : list string :=
  fold_right insertSorted [] l.

Definition join (l : list string) : string := String.concat "" l.

Definition isSolved (state : CubeState) : bool :=
  forallb (fun face =>
    let faceColors := grid face state in
    let centerColor := get i1 (get i1 faceColors) in
    forallb (fun i =>
      forallb (fun j =>
        Color_eqb (get j (get i faceColors)) centerColor) indices) indices)
    keys.

Definition checkEdgeOrientation (state : CubeState) : bool :=
  let frontCenter := getc kF i1 i1 state in
  let topCenter := getc kU i1 i1 state in
  let frontTopEdge := getc kF i0 i1 state in
  let topFrontEdge := getc kU i2 i1 state in
  (Color_eqb frontTopEdge frontCenter && Color_eqb topFrontEdge topCenter)
  || (Color_eqb frontTopEdge topCenter && Color_eqb topFrontEdge frontCenter).

Definition checkCornerPositions (state : CubeState) : bool :=
  let frontRightTopCorner :=
    [colorName (getc kF i0 i2 state); colorName (getc kR i0 i0 state);
     colorName (getc kU i2 i2 state)] in
  let centers :=
    [colorName (getc kF i1 i1 state); colorName (getc kR i1 i1 state);
     colorName (getc kU i1 i1 state)] in
  join (sort frontRightTopCorner) =? join (sort centers).

Definition checkEdgePermutation (state : CubeState) : bool := isSolved state.

Definition checkCornerOrientation (state : CubeState) : bool := isSolved state.

Definition countSolvedFaces (state : CubeState) : nat :=
  length (filter (fun face =>
    let faceColors := grid face state in
    let centerColor := get i1 (get i1 faceColors) in
    forallb (fun i =>
      forallb (fun j =>
        Color_eqb (get j (get i faceColors)) centerColor) indices) indices)
    keys).

Definition calculateScrambleLevel (state : CubeState) : Q :=
  let totalPieces := 54%positive in
  let wrongPieces :=
    list_sum (map (fun face =>
      let faceColors := grid face state in
      let centerColor := get i1 (get i1 faceColors) in
      list_sum (map (fun i =>
        list_sum (map (fun j =>
          if Color_eqb (get j (get i faceColors)) centerColor then 0 else 1)
          indices)) indices)) keys) in
  Z.of_nat wrongPieces # totalPieces.

Definition analyzeCubeState (state : CubeState) : CubeAnalysis :=
  mkAnalysis (checkEdgeOrientation state) (checkCornerPositions state)
             (checkEdgePermutation state) (checkCornerOrientation state)
             (countSolvedFaces state) (calculateScrambleLevel state).

Definition findMisorientedEdges (state : CubeState) : list string :=
  let badEdges := [] in
  let badEdges :=
    if negb (Color_eqb (getc kF i0 i1 state) (getc kF i1 i1 state))
       || negb (Color_eqb (getc kU i2 i1 state) (getc kU i1 i1 state))
    then badEdges ++ ["front-top"] else badEdges in
  let badEdges :=
    if negb (Color_eqb (getc kR i0 i1 state) (getc kR i1 i1 state))
       || negb (Color_eqb (getc kU i1 i2 state) (getc kU i1 i1 state))
    then badEdges ++ ["right-top"] else badEdges in
  let badEdges :=
    if negb (Color_eqb (getc kB i0 i1 state) (getc kB i1 i1 state))
       || negb (Color_eqb (getc kU i0 i1 state) (getc kU i1 i1 state))
    then badEdges ++ ["back-top"] else badEdges in
  badEdges.

Definition includes (l : list string) (x : string) : bool :=
  existsb (String.eqb x) l.

Definition arraysEqual (a b : list string) : bool :=
  (length a =? length b)%nat
  && forallb (fun vi =>
       match nth_error b (snd vi) with
       | Some w => fst vi =? w
       | None => false
       end) (combine a (seq 0 (length a))).

Definition findWrongPositionCorners (state : CubeState) : list string :=
  let wrongCorners := [] in
  let frontRightTop :=
    [colorName (getc kF i0 i2 state); colorName (getc kR i0 i0 state);
     colorName (getc kU i2 i2 state)] in
  let expectedColors :=
    [colorName (getc kF i1 i1 state); colorName (getc kR i1 i1 state);
     colorName (getc kU i1 i1 state)] in
  if negb (arraysEqual (sort frontRightTop) (sort expectedColors))
  then wrongCorners ++ ["front-right-top"] else wrongCorners.

Definition orientEdgesReal (state : CubeState) : list SolutionStep :=
  let steps := [] in
  let badEdges := findMisorientedEdges state in
  if (0 <? length badEdges)%nat then
    let steps :=
      if includes badEdges "front-top"
      then steps ++ [mkStep "F R U R' U' F'" "Orient front-top edge"
                            "Edge Orientation"]
      else steps in
    let steps :=
      if includes badEdges "right-top"
      then steps ++ [mkStep "R U R' U'" "Orient right-top edge"
                            "Edge Orientation"]
      else steps in
    let steps :=
      if includes badEdges "back-top"
      then steps ++ [mkStep "B U B' U'" "Orient back-top edge"
                            "Edge Orientation"]
      else steps in
    steps
  else steps.

Definition positionCornersReal (state : CubeState) : list SolutionStep :=
  let steps := [] in
  let wrongCorners := findWrongPositionCorners state in
  if (0 <? length wrongCorners)%nat then
    steps ++ [mkStep "R U R' F' R U R' U' R' F R2 U' R'"
                     "Position corners for Phase 2" "Corner Positioning"]
  else steps.

Definition solveCornerPermutationPhase2 (state : CubeState)
  : list SolutionStep :=
  [mkStep "U R2 U' R2 U'" "Permute corners (Phase 2)" "Phase 2 Corners"].

Definition solveEdgePermutationPhase2 (state : CubeState)
  : list SolutionStep :=
  [mkStep "U2 R2 U2 R2 U2" "Permute edges (Phase 2)" "Phase 2 Edges"].

Definition kociembaPhase1Real (state : CubeState) (analysis : CubeAnalysis)
  : W (list SolutionStep) :=
  let steps := [] in
  log LogPhase1Start ;;;
  let steps :=
    if negb (edgesOriented analysis)
    then steps ++ orientEdgesReal state else steps in
  let steps :=
    if negb (cornersPositioned analysis)
    then steps ++ positionCornersReal state else steps in
  let phase1Limited := firstn 12 steps in
  log (LogPhase1Complete (length phase1Limited)) ;;;
  retW phase1Limited.

Definition kociembaPhase2Real (state : CubeState) (analysis : CubeAnalysis)
  : W (list SolutionStep) :=
  let steps := [] in
  log LogPhase2Start ;;;
  let steps :=
    if negb (cornersOriented analysis)
    then steps ++ solveCornerPermutationPhase2 state else steps in
  let steps :=
    if negb (edgesPermuted analysis)
    then steps ++ solveEdgePermutationPhase2 state else steps in
  let phase2Limited := firstn 18 steps in
  log (LogPhase2Complete (length phase2Limited)) ;;;
  retW phase2Limited.

(** The loop [for (const step of phase1Steps)
      intermediateState = this.applyMove(intermediateState, step.move)]. *)
Fixpoint applySteps (state : CubeState) (l : list SolutionStep)
  : Result CubeState :=
  match l with
  | [] => Ok state
  | step :: l' =>
    state' <- applyMove state (move step) ;; applySteps state' l'
  end.

Definition kociembaAlgorithm (state : CubeState) : W KociembaResult :=
  log LogSolverStart ;;;
  let cubeAnalysis := analyzeCubeState state in
  log (LogAnalysis cubeAnalysis) ;;;
  phase1Steps <-- kociembaPhase1Real state cubeAnalysis ;;;
  intermediateState <-- liftR (applySteps state phase1Steps) ;;;
  let phase2Analysis := analyzeCubeState intermediateState in
  phase2Steps <-- kociembaPhase2Real intermediateState phase2Analysis ;;;
  let allSteps := phase1Steps ++ phase2Steps in
  let totalMoves := length allSteps in
  let difficulty :=
    if (totalMoves <=? 20)%nat then Easy
    else if (totalMoves <=? 30)%nat then Medium else Hard in
  log (LogKociembaComplete (length phase1Steps) (length phase2Steps)
                           totalMoves) ;;;
  retW (mkKociemba allSteps totalMoves
                   (Qmax 8 (inject_Z (Z.of_nat totalMoves) * (4 # 10)))
                   difficulty
                   "Kociemba" (length phase1Steps) (length phase2Steps)).

(** [solveCube].  [elapsed] stands for
    [Math.round(performance.now() - startTime)], the one input of the
    function that comes from the clock. *)
Definition solveCube (elapsed : nat) (state : CubeState) : W SolutionResult :=
  log LogStartTwoPhase ;;;
  if isSolved state then
    retW (mkSolution [] 0 0 Easy "Kociemba" 0 0 0)
  else
    solution <-- kociembaAlgorithm state ;;;
    let solutionTime := elapsed in
    log (LogSolution (k_totalMoves solution)) ;;;
    retW (mkSolution (k_steps solution) (k_totalMoves solution)
                     (k_estimatedTime solution) (k_difficulty solution)
                     (k_algorithm solution) (k_phase1Moves solution)
                     (k_phase2Moves solution) solutionTime).

(* ---------------- Move sequences as text ---------------- *)

Definition formatMoveSequence (moves : list Move) : string :=
  String.concat " " moves.

(** [s.split(sep)] for a separator of one code unit. *)
Fixpoint split (sep : ascii) (s : string) : list string :=
  match s with
  | EmptyString => [EmptyString]
  | String c rest =>
    if Ascii.eqb c sep then EmptyString :: split sep rest
    else match split sep rest with
         | h :: t => String c h :: t
         | [] => [String c EmptyString]
         end
  end.

(** White space and line terminators among the code units below 256:
    tab, line feed, vertical tab, form feed, carriage return, space and the
    no-break space. *)
Definition isWhiteSpace (c : ascii) : bool :=
  let n := nat_of_ascii c in
  ((n =? 9) || (n =? 10) || (n =? 11) || (n =? 12) || (n =? 13)
   || (n =? 32) || (n =? 160))%nat.

Fixpoint trimStart (s : string) : string :=
  match s with
  | EmptyString => EmptyString
  | String c rest => if isWhiteSpace c then trimStart rest else s
  end.

Fixpoint trimEnd (s : string) : string :=
  match s with
  | EmptyString => EmptyString
  | String c rest =>
    match trimEnd rest with
    | EmptyString => if isWhiteSpace c then EmptyString
                     else String c EmptyString
    | rest' => String c rest'
    end
  end.

(** [s.trim()]. *)
Definition trim (s : string) : string := trimEnd (trimStart s).

Definition parseMoveSequence (sequence : string) : list Move :=
  filter (fun move => (0 <? String.length (trim move))%nat)
         (split " " sequence).

Definition getDifficultyLevel (moves : nat) : Difficulty :=
  if (moves <=? 20)%nat then Easy
  else if (moves <=? 35)%nat then Medium
  else Hard.

(** [x.toJSON]-free serialisation [JSON.stringify(state)] of a cube state
    whose keys are in the order of [SOLVED_STATE] (the order every state made
    by [createSolvedCube] and [applyMove] has).  Each printer takes the text
    that follows. *)
Definition dq : string := String (ascii_of_nat 34) EmptyString.

Definition putColor (c : Color) (k : string) : string :=
  dq ++ colorName c ++ dq ++ k.

Definition putRow (r : Row Color) (k : string) : string :=
  "[" ++ putColor (x0 r) ("," ++ putColor (x1 r) ("," ++
         putColor (x2 r) ("]" ++ k))).

Definition putGrid (g : Grid) (k : string) : string :=
  "[" ++ putRow (x0 g) ("," ++ putRow (x1 g) ("," ++
         putRow (x2 g) ("]" ++ k))).

Definition putKey (name : string) (k : string) : string :=
  dq ++ name ++ dq ++ ":" ++ k.

Definition putFaces (f : Faces) (k : string) : string :=
  "{" ++ putKey "U" (putGrid (U f) ("," ++
         putKey "D" (putGrid (D f) ("," ++
         putKey "L" (putGrid (L f) ("," ++
         putKey "R" (putGrid (R f) ("," ++
         putKey "F" (putGrid (F f) ("," ++
         putKey "B" (putGrid (B f) ("}" ++ k)))))))))))).

Definition JSON_stringify (s : CubeState) : string :=
  "{" ++ putKey "faces" (putFaces (faces s) "}").

End RubiksCubeSolver.


(* ------------------------------------------------------------------ *)
(** ** The validator of detected states ([computer-vision.ts]) *)

Module ComputerVision.

Import RubiksCubeSolver.

(** [colorCounts], a dictionary from colour names to numbers; a key that is
    absent reads as [undefined], which [|| 0] turns into 0. *)
Definition Counts := string -> nat.

Definition noCounts : Counts := fun _ => 0.

(** [colorCounts[color] = (colorCounts[color] || 0) + 1]. *)
Definition bump (colorCounts : Counts) (color : string) : Counts :=
  fun key => if key =? color then colorCounts color + 1 else colorCounts key.

(** The three nested [forEach] loops over [Object.values(cubeState.faces)]. *)
Definition countColors (cubeState : CubeState) : Counts :=
  fold_left (fun counts face =>
    fold_left (fun counts row =>
      fold_left (fun counts color => bump counts (colorName color))
                (row_to_list row) counts)
      (row_to_list face) counts)
    (map (fun k => grid k cubeState) keys) noCounts.

(** A number in a template literal. *)
Definition showNat (n : nat) : string :=
  DecimalString.NilEmpty.string_of_uint (Nat.to_uint n).

Definition expectedColors : list Color :=
  [white; yellow; red; orange; blue; green].

Definition expectedCenters : list (FaceKey * Color) :=
  [(kU, white); (kD, yellow); (kL, orange); (kR, red); (kF, green);
   (kB, blue)].

Record Validation : Type := mkValidation
  { isValid : bool; errors : list string }.

Definition validateCubeState (cubeState : CubeState) : Validation :=
  let errors := [] in
  let colorCounts := countColors cubeState in
  let errors :=
    fold_left (fun errors color =>
      let count := colorCounts (colorName color) in
      if negb (count =? 9)%nat
      then errors ++ ["Color " ++ colorName color ++ " appears "
                      ++ showNat count ++ " times, expected 9"]%string
      else errors) expectedColors errors in
  let centers := fun face => getc face i1 i1 cubeState in
  let errors :=
    fold_left (fun errors entry =>
      let face := fst entry in
      let expectedColor := snd entry in
      if negb (Color_eqb (centers face) expectedColor)
      then errors ++ ["Face " ++ keyName face ++ " center should be "
                      ++ colorName expectedColor ++ ", got "
                      ++ colorName (centers face)]%string
      else errors) expectedCenters errors in
  mkValidation (length errors =? 0)%nat errors.

End ComputerVision.

(* ------------------------------------------------------------------ *)
(** ** The session manager ([cube-state-manager.ts]) *)

Module CubeStateManager.

Import RubiksCubeSolver.

(** The three private fields of a [CubeStateManager] object. *)
Record Manager : Type := mkManager
  { currentState : CubeState;
    moveHistory : list Move;
    scrambleSequence : list Move }.

(** A method: from the object before the call to the object after it, and
    the value returned or the exception raised.  Fields written before an
    exception keep their new values. *)
Definition Method (A : Type) : Type := Manager -> Manager * Result A.

Definition constructor : Manager := mkManager createSolvedCube [] [].

Definition getCurrentState : Method CubeState :=
  fun this => (this, Ok (currentState this)).

Definition applyMove (move : Move) : Method unit :=
  fun this =>
    match RubiksCubeSolver.applyMove (currentState this) move with
    | Throw e => (this, Throw e)
    | Ok state' =>
      let this := mkManager state' (moveHistory this)
                            (scrambleSequence this) in
      let this := mkManager (currentState this) (moveHistory this ++ [move])
                            (scrambleSequence this) in
      (this, Ok tt)
    end.

Definition reset : Method unit :=
  fun this => (mkManager createSolvedCube [] [], Ok tt).

Definition isSolved : Method bool :=
  fun this =>
    let solvedState := createSolvedCube in
    (this, Ok (JSON_stringify (currentState this)
               =? JSON_stringify solvedState)).

Definition getMoveHistory : Method (list Move) :=
  fun this => (this, Ok (moveHistory this)).

Definition getMoveCount : Method nat :=
  fun this => (this, Ok (length (moveHistory this))).

Definition getInverseMove (move : Move) : Move :=
  let face := charAt 0 move in
  let modifier := slice 1 move in
  if modifier =? "'" then face
  else if modifier =? "2" then move
  else (face ++ "'")%string.

Definition undoLastMove : Method bool :=
  fun this =>
    if (length (moveHistory this) =? 0)%nat then (this, Ok false)
    else
      (* moveHistory.pop() *)
      let lastMove := last (moveHistory this) "" in
      let this := mkManager (currentState this)
                            (removelast (moveHistory this))
                            (scrambleSequence this) in
      let inverseMove := getInverseMove lastMove in
      match RubiksCubeSolver.applyMove (currentState this) inverseMove with
      | Throw e => (this, Throw e)
      | Ok state' =>
        (mkManager state' (moveHistory this) (scrambleSequence this),
         Ok true)
      end.

(** [scramble(moves)], fed the draws [scrambleCube] consumes.  When
    [scrambleCube] does not return, nothing has been assigned. *)
Definition scramble (moves : nat) (draws : list nat)
  : Manager -> Manager * Outcome (list Move) :=
  fun this =>
    match scrambleCube moves draws with
    | Returns (state, scramble) =>
      (mkManager state scramble scramble, Returns scramble)
    | Raises e => (this, Raises e)
    | Starved => (this, Starved)
    end.

Definition getScrambleSequence : Method (list Move) :=
  fun this => (this, Ok (scrambleSequence this)).

(** [getSolution()], with the clock reading [solveCube] takes. *)
Definition getSolution (elapsed : nat)
  : Manager -> Manager * W SolutionResult :=
  fun this => (this, solveCube elapsed (currentState this)).

(* ---------- the render projection ---------- *)













(** One call after another on the same object. *)
Definition andThen {A B} (m : Method A) (k : Method B)
  : Manager -> Manager * (Result A * Result B) :=
  fun this =>
    let (this1, r1) := m this in
    let (this2, r2) := k this1 in
    (this2, (r1, r2)).

End CubeStateManager.

(* ------------------------------------------------------------------ *)
(** ** The canvas component's move table ([RubiksCube3D]) *)

Module RubiksCube3D.

(** Indices 0..8 of a face's array of nine squares. *)
Inductive Sq : Type := s0 | s1 | s2 | s3 | s4 | s5 | s6 | s7 | s8.

Record Squares : Type := mkSquares
  { q0 : string; q1 : string; q2 : string;
    q3 : string; q4 : string; q5 : string;
    q6 : string; q7 : string; q8 : string }.

Definition nth9 (i : Sq) (a : Squares) : string :=
  match i with
  | s0 => q0 a | s1 => q1 a | s2 => q2 a
  | s3 => q3 a | s4 => q4 a | s5 => q5 a
  | s6 => q6 a | s7 => q7 a | s8 => q8 a
  end.

Definition upd9 (i : Sq) (v : string) (a : Squares) : Squares :=
  match i with
  | s0 => mkSquares v (q1 a) (q2 a) (q3 a) (q4 a) (q5 a) (q6 a) (q7 a) (q8 a)
  | s1 => mkSquares (q0 a) v (q2 a) (q3 a) (q4 a) (q5 a) (q6 a) (q7 a) (q8 a)
  | s2 => mkSquares (q0 a) (q1 a) v (q3 a) (q4 a) (q5 a) (q6 a) (q7 a) (q8 a)
  | s3 => mkSquares (q0 a) (q1 a) (q2 a) v (q4 a) (q5 a) (q6 a) (q7 a) (q8 a)
  | s4 => mkSquares (q0 a) (q1 a) (q2 a) (q3 a) v (q5 a) (q6 a) (q7 a) (q8 a)
  | s5 => mkSquares (q0 a) (q1 a) (q2 a) (q3 a) (q4 a) v (q6 a) (q7 a) (q8 a)
  | s6 => mkSquares (q0 a) (q1 a) (q2 a) (q3 a) (q4 a) (q5 a) v (q7 a) (q8 a)
  | s7 => mkSquares (q0 a) (q1 a) (q2 a) (q3 a) (q4 a) (q5 a) (q6 a) v (q8 a)
  | s8 => mkSquares (q0 a) (q1 a) (q2 a) (q3 a) (q4 a) (q5 a) (q6 a) (q7 a) v
  end.

(** The component's own [CubeState] interface. *)
Record CubeState : Type := mkState
  { front : Squares; back : Squares; top : Squares;
    bottom : Squares; left : Squares; right : Squares }.

Inductive Side : Type := Front | Back | Top | Bottom | Left | Right.

Definition side (k : Side) (s : CubeState) : Squares :=
  match k with
  | Front => front s | Back => back s | Top => top s
  | Bottom => bottom s | Left => left s | Right => right s
  end.

Definition setSide (k : Side) (a : Squares) (s : CubeState) : CubeState :=
  match k with
  | Front => mkState a (back s) (top s) (bottom s) (left s) (right s)
  | Back => mkState (front s) a (top s) (bottom s) (left s) (right s)
  | Top => mkState (front s) (back s) a (bottom s) (left s) (right s)
  | Bottom => mkState (front s) (back s) (top s) a (left s) (right s)
  | Left => mkState (front s) (back s) (top s) (bottom s) a (right s)
  | Right => mkState (front s) (back s) (top s) (bottom s) (left s) a
  end.

(** [newState.side[i]] and [newState.side[i] = v]. *)
Definition getq (k : Side) (i : Sq) (s : CubeState) : string :=
  nth9 i (side k s).

Definition setq (k : Side) (i : Sq) (v : string) (s : CubeState)
  : CubeState :=
  setSide k (upd9 i v (side k s)) s.

Definition fill (c : string) : Squares := mkSquares c c c c c c c c c.

Definition SOLVED_CUBE : CubeState :=
  mkState (fill "G") (fill "B") (fill "W") (fill "Y") (fill "O") (fill "R").

Definition rotateFaceClockwise (face : Squares) : Squares :=
  mkSquares (nth9 s6 face) (nth9 s3 face) (nth9 s0 face)
            (nth9 s7 face) (nth9 s4 face) (nth9 s1 face)
            (nth9 s8 face) (nth9 s5 face) (nth9 s2 face).

Definition rotateFaceCounterClockwise (face : Squares) : Squares :=
  mkSquares (nth9 s2 face) (nth9 s5 face) (nth9 s8 face)
            (nth9 s1 face) (nth9 s4 face) (nth9 s7 face)
            (nth9 s0 face) (nth9 s3 face) (nth9 s6 face).

(** [applyMove(move, state)]: a [switch (move)] over twelve tokens; any other
    token falls through it and the copy is returned as it is. *)
Definition applyMove (move : string) (state : CubeState) : CubeState :=
  let newState := state in
  if move =? "R" then
    let newState :=
      setSide Right (rotateFaceClockwise (side Right newState)) newState in
    let temp := mkRow (getq Front s2 newState) (getq Front s5 newState)
                      (getq Front s8 newState) in
    let newState := setq Front s2 (getq Bottom s2 newState) newState in
    let newState := setq Front s5 (getq Bottom s5 newState) newState in
    let newState := setq Front s8 (getq Bottom s8 newState) newState in
    let newState := setq Bottom s2 (getq Back s6 newState) newState in
    let newState := setq Bottom s5 (getq Back s3 newState) newState in
    let newState := setq Bottom s8 (getq Back s0 newState) newState in
    let newState := setq Back s6 (getq Top s2 newState) newState in
    let newState := setq Back s3 (getq Top s5 newState) newState in
    let newState := setq Back s0 (getq Top s8 newState) newState in
    let newState := setq Top s2 (get i0 temp) newState in
    let newState := setq Top s5 (get i1 temp) newState in
    let newState := setq Top s8 (get i2 temp) newState in
    newState
  else if move =? "R'" then
    let newState := Nat.iter 3 (fun newState =>
        setSide Right (rotateFaceClockwise (side Right newState)) newState)
      newState in
    let temp := mkRow (getq Front s2 newState) (getq Front s5 newState)
                      (getq Front s8 newState) in
    let newState := setq Front s2 (getq Top s2 newState) newState in
    let newState := setq Front s5 (getq Top s5 newState) newState in
    let newState := setq Front s8 (getq Top s8 newState) newState in
    let newState := setq Top s2 (getq Back s6 newState) newState in
    let newState := setq Top s5 (getq Back s3 newState) newState in
    let newState := setq Top s8 (getq Back s0 newState) newState in
    let newState := setq Back s6 (getq Bottom s2 newState) newState in
    let newState := setq Back s3 (getq Bottom s5 newState) newState in
    let newState := setq Back s0 (getq Bottom s8 newState) newState in
    let newState := setq Bottom s2 (get i0 temp) newState in
    let newState := setq Bottom s5 (get i1 temp) newState in
    let newState := setq Bottom s8 (get i2 temp) newState in
    newState
  else if move =? "L" then
    let newState :=
      setSide Left (rotateFaceClockwise (side Left newState)) newState in
    let temp := mkRow (getq Front s0 newState) (getq Front s3 newState)
                      (getq Front s6 newState) in
    let newState := setq Front s0 (getq Top s0 newState) newState in
    let newState := setq Front s3 (getq Top s3 newState) newState in
    let newState := setq Front s6 (getq Top s6 newState) newState in
    let newState := setq Top s0 (getq Back s8 newState) newState in
    let newState := setq Top s3 (getq Back s5 newState) newState in
    let newState := setq Top s6 (getq Back s2 newState) newState in
    let newState := setq Back s8 (getq Bottom s0 newState) newState in
    let newState := setq Back s5 (getq Bottom s3 newState) newState in
    let newState := setq Back s2 (getq Bottom s6 newState) newState in
    let newState := setq Bottom s0 (get i0 temp) newState in
    let newState := setq Bottom s3 (get i1 temp) newState in
    let newState := setq Bottom s6 (get i2 temp) newState in
    newState
  else if move =? "L'" then
    let newState := Nat.iter 3 (fun newState =>
        setSide Left (rotateFaceClockwise (side Left newState)) newState)
      newState in
    let temp := mkRow (getq Front s0 newState) (getq Front s3 newState)
                      (getq Front s6 newState) in
    let newState := setq Front s0 (getq Bottom s0 newState) newState in
    let newState := setq Front s3 (getq Bottom s3 newState) newState in
    let newState := setq Front s6 (getq Bottom s6 newState) newState in
    let newState := setq Bottom s0 (getq Back s8 newState) newState in
    let newState := setq Bottom s3 (getq Back s5 newState) newState in
    let newState := setq Bottom s6 (getq Back s2 newState) newState in
    let newState := setq Back s8 (getq Top s0 newState) newState in
    let newState := setq Back s5 (getq Top s3 newState) newState in
    let newState := setq Back s2 (getq Top s6 newState) newState in
    let newState := setq Top s0 (get i0 temp) newState in
    let newState := setq Top s3 (get i1 temp) newState in
    let newState := setq Top s6 (get i2 temp) newState in
    newState
  else if move =? "U" then
    let newState :=
      setSide Top (rotateFaceClockwise (side Top newState)) newState in
    let temp := mkRow (getq Front s0 newState) (getq Front s1 newState)
                      (getq Front s2 newState) in
    let newState := setq Front s0 (getq Right s0 newState) newState in
    let newState := setq Front s1 (getq Right s1 newState) newState in
    let newState := setq Front s2 (getq Right s2 newState) newState in
    let newState := setq Right s0 (getq Back s0 newState) newState in
    let newState := setq Right s1 (getq Back s1 newState) newState in
    let newState := setq Right s2 (getq Back s2 newState) newState in
    let newState := setq Back s0 (getq Left s0 newState) newState in
    let newState := setq Back s1 (getq Left s1 newState) newState in
    let newState := setq Back s2 (getq Left s2 newState) newState in
    let newState := setq Left s0 (get i0 temp) newState in
    let newState := setq Left s1 (get i1 temp) newState in
    let newState := setq Left s2 (get i2 temp) newState in
    newState
  else if move =? "U'" then
    let newState := Nat.iter 3 (fun newState =>
        setSide Top (rotateFaceClockwise (side Top newState)) newState)
      newState in
    let temp := mkRow (getq Front s0 newState) (getq Front s1 newState)
                      (getq Front s2 newState) in
    let newState := setq Front s0 (getq Left s0 newState) newState in
    let newState := setq Front s1 (getq Left s1 newState) newState in
    let newState := setq Front s2 (getq Left s2 newState) newState in
    let newState := setq Left s0 (getq Back s0 newState) newState in
    let newState := setq Left s1 (getq Back s1 newState) newState in
    let newState := setq Left s2 (getq Back s2 newState) newState in
    let newState := setq Back s0 (getq Right s0 newState) newState in
    let newState := setq Back s1 (getq Right s1 newState) newState in
    let newState := setq Back s2 (getq Right s2 newState) newState in
    let newState := setq Right s0 (get i0 temp) newState in
    let newState := setq Right s1 (get i1 temp) newState in
    let newState := setq Right s2 (get i2 temp) newState in
    newState
  else if move =? "D" then
    let newState :=
      setSide Bottom (rotateFaceClockwise (side Bottom newState)) newState in
    let temp := mkRow (getq Front s6 newState) (getq Front s7 newState)
                      (getq Front s8 newState) in
    let newState := setq Front s6 (getq Left s6 newState) newState in
    let newState := setq Front s7 (getq Left s7 newState) newState in
    let newState := setq Front s8 (getq Left s8 newState) newState in
    let newState := setq Left s6 (getq Back s6 newState) newState in
    let newState := setq Left s7 (getq Back s7 newState) newState in
    let newState := setq Left s8 (getq Back s8 newState) newState in
    let newState := setq Back s6 (getq Right s6 newState) newState in
    let newState := setq Back s7 (getq Right s7 newState) newState in
    let newState := setq Back s8 (getq Right s8 newState) newState in
    let newState := setq Right s6 (get i0 temp) newState in
    let newState := setq Right s7 (get i1 temp) newState in
    let newState := setq Right s8 (get i2 temp) newState in
    newState
  else if move =? "D'" then
    let newState := Nat.iter 3 (fun newState =>
        setSide Bottom (rotateFaceClockwise (side Bottom newState)) newState)
      newState in
    let temp := mkRow (getq Front s6 newState) (getq Front s7 newState)
                      (getq Front s8 newState) in
    let newState := setq Front s6 (getq Right s6 newState) newState in
    let newState := setq Front s7 (getq Right s7 newState) newState in
    let newState := setq Front s8 (getq Right s8 newState) newState in
    let newState := setq Right s6 (getq Back s6 newState) newState in
    let newState := setq Right s7 (getq Back s7 newState) newState in
    let newState := setq Right s8 (getq Back s8 newState) newState in
    let newState := setq Back s6 (getq Left s6 newState) newState in
    let newState := setq Back s7 (getq Left s7 newState) newState in
    let newState := setq Back s8 (getq Left s8 newState) newState in
    let newState := setq Left s6 (get i0 temp) newState in
    let newState := setq Left s7 (get i1 temp) newState in
    let newState := setq Left s8 (get i2 temp) newState in
    newState
  else if move =? "F" then
    let newState :=
      setSide Front (rotateFaceClockwise (side Front newState)) newState in
    let temp := mkRow (getq Top s6 newState) (getq Top s7 newState)
                      (getq Top s8 newState) in
    let newState := setq Top s6 (getq Left s8 newState) newState in
    let newState := setq Top s7 (getq Left s5 newState) newState in
    let newState := setq Top s8 (getq Left s2 newState) newState in
    let newState := setq Left s8 (getq Bottom s2 newState) newState in
    let newState := setq Left s5 (getq Bottom s1 newState) newState in
    let newState := setq Left s2 (getq Bottom s0 newState) newState in
    let newState := setq Bottom s2 (getq Right s0 newState) newState in
    let newState := setq Bottom s1 (getq Right s3 newState) newState in
    let newState := setq Bottom s0 (getq Right s6 newState) newState in
    let newState := setq Right s0 (get i0 temp) newState in
    let newState := setq Right s3 (get i1 temp) newState in
    let newState := setq Right s6 (get i2 temp) newState in
    newState
  else if move =? "F'" then
    let newState := Nat.iter 3 (fun newState =>
        setSide Front (rotateFaceClockwise (side Front newState)) newState)
      newState in
    let temp := mkRow (getq Top s6 newState) (getq Top s7 newState)
                      (getq Top s8 newState) in
    let newState := setq Top s6 (getq Right s0 newState) newState in
    let newState := setq Top s7 (getq Right s3 newState) newState in
    let newState := setq Top s8 (getq Right s6 newState) newState in
    let newState := setq Right s0 (getq Bottom s2 newState) newState in
    let newState := setq Right s3 (getq Bottom s1 newState) newState in
    let newState := setq Right s6 (getq Bottom s0 newState) newState in
    let newState := setq Bottom s2 (getq Left s8 newState) newState in
    let newState := setq Bottom s1 (getq Left s5 newState) newState in
    let newState := setq Bottom s0 (getq Left s2 newState) newState in
    let newState := setq Left s8 (get i0 temp) newState in
    let newState := setq Left s5 (get i1 temp) newState in
    let newState := setq Left s2 (get i2 temp) newState in
    newState
  else if move =? "B" then
    let newState :=
      setSide Back (rotateFaceClockwise (side Back newState)) newState in
    let temp := mkRow (getq Top s0 newState) (getq Top s1 newState)
                      (getq Top s2 newState) in
    let newState := setq Top s0 (getq Right s2 newState) newState in
    let newState := setq Top s1 (getq Right s5 newState) newState in
    let newState := setq Top s2 (getq Right s8 newState) newState in
    let newState := setq Right s2 (getq Bottom s8 newState) newState in
    let newState := setq Right s5 (getq Bottom s7 newState) newState in
    let newState := setq Right s8 (getq Bottom s6 newState) newState in
    let newState := setq Bottom s8 (getq Left s6 newState) newState in
    let newState := setq Bottom s7 (getq Left s3 newState) newState in
    let newState := setq Bottom s6 (getq Left s0 newState) newState in
    let newState := setq Left s6 (get i0 temp) newState in
    let newState := setq Left s3 (get i1 temp) newState in
    let newState := setq Left s0 (get i2 temp) newState in
    newState
  else if move =? "B'" then
    let newState := Nat.iter 3 (fun newState =>
        setSide Back (rotateFaceClockwise (side Back newState)) newState)
      newState in
    let temp := mkRow (getq Top s0 newState) (getq Top s1 newState)
                      (getq Top s2 newState) in
    let newState := setq Top s0 (getq Left s6 newState) newState in
    let newState := setq Top s1 (getq Left s3 newState) newState in
    let newState := setq Top s2 (getq Left s0 newState) newState in
    let newState := setq Left s6 (getq Bottom s8 newState) newState in
    let newState := setq Left s3 (getq Bottom s7 newState) newState in
    let newState := setq Left s0 (getq Bottom s6 newState) newState in
    let newState := setq Bottom s8 (getq Right s2 newState) newState in
    let newState := setq Bottom s7 (getq Right s5 newState) newState in
    let newState := setq Bottom s6 (getq Right s8 newState) newState in
    let newState := setq Right s2 (get i0 temp) newState in
    let newState := setq Right s5 (get i1 temp) newState in
    let newState := setq Right s8 (get i2 temp) newState in
    newState
  else newState.

(** The correspondence between the two facelet layouts: face [U] is [top],
    [D] is [bottom], and square [3 * row + col] is row [row], column [col]. *)
Definition colorLetter (c : RubiksCubeSolver.Color) : string :=
  match c with
  | RubiksCubeSolver.white => "W" | RubiksCubeSolver.yellow => "Y"
  | RubiksCubeSolver.red => "R" | RubiksCubeSolver.orange => "O"
  | RubiksCubeSolver.blue => "B" | RubiksCubeSolver.green => "G"
  end.

Definition squaresOf (g : RubiksCubeSolver.Grid) : Squares :=
  mkSquares
    (colorLetter (get i0 (get i0 g))) (colorLetter (get i1 (get i0 g)))
    (colorLetter (get i2 (get i0 g)))
    (colorLetter (get i0 (get i1 g))) (colorLetter (get i1 (get i1 g)))
    (colorLetter (get i2 (get i1 g)))
    (colorLetter (get i0 (get i2 g))) (colorLetter (get i1 (get i2 g)))
    (colorLetter (get i2 (get i2 g))).

Definition ofSolver (s : RubiksCubeSolver.CubeState) : CubeState :=
  let f := RubiksCubeSolver.faces s in
  mkState (squaresOf (RubiksCubeSolver.F f)) (squaresOf (RubiksCubeSolver.B f))
          (squaresOf (RubiksCubeSolver.U f)) (squaresOf (RubiksCubeSolver.D f))
          (squaresOf (RubiksCubeSolver.L f)) (squaresOf (RubiksCubeSolver.R f)).

End RubiksCube3D.

(* ------------------------------------------------------------------ *)
(** ** Vocabulary of the statements *)

Import RubiksCubeSolver.

(** The 54 facelets, face by face, row by row. *)
Definition facelets (s : CubeState) : list Color :=
  flat_map (fun k => flat_map (@row_to_list Color) (row_to_list (grid k s)))
           keys.

Definition indicator (c x : Color) : nat :=
  if Color_eqb x c then 1 else 0.

(** How many of the 54 facelets have colour [c]. *)
Definition countColor (c : Color) (s : CubeState) : nat :=
  list_sum (map (indicator c) (facelets s)).

(** The six centre facelets, [faces.K[1][1]] for each face. *)
Definition centers (s : CubeState) : list Color :=
  map (fun k => getc k i1 i1 s) keys.

(** The six base faces as tokens. *)
Definition baseFaces : list Face := map keyName keys.

(** No move has the base face of the move just before it. *)
Fixpoint noRepeatedFace (ms : list Move) : Prop :=
  match ms with
  | m1 :: ((m2 :: _) as tl) => charAt 0 m1 <> charAt 0 m2 /\ noRepeatedFace tl
  | _ => True
  end.

(** The moves the rejection loop of [scrambleCube] lets through, given the
    scramble built so far. *)
Fixpoint acceptedMoves (scramble : list Move) (draws : list nat)
  : list Move :=
  match draws with
  | [] => []
  | d :: draws' =>
    match nth_error possibleMoves d with
    | None => []
    | Some move =>
      if (0 <? length scramble)%nat && isOppositeMove (last scramble "") move
      then acceptedMoves scramble draws'
      else move :: acceptedMoves (scramble ++ [move]) draws'
    end
  end.

(** Every face is of one colour, the colour of its own centre. *)
Definition facesUniform (s : CubeState) : Prop :=
  forall k r c, getc k r c s = getc k i1 i1 s.

(** A state whose faces are uniform but whose U and D colours are exchanged. *)
Definition upDownExchanged : CubeState :=
  mkCube (mkFaces (uniform yellow) (uniform white) (uniform orange)
                  (uniform red) (uniform green) (uniform blue)).

(** Twenty draws: R L U D F B, three times, then R L. *)
Definition draws20 : list nat :=
  [0; 3; 6; 9; 12; 15; 0; 3; 6; 9; 12; 15; 0; 3; 6; 9; 12; 15; 0; 3].

(** The face across the cube. *)
Definition opposite (k : FaceKey) : FaceKey :=
  match k with
  | kU => kD | kD => kU | kL => kR | kR => kL | kF => kB | kB => kF
  end.

(** The three modifier suffixes of the move notation. *)
Definition modifiers : list string := [""; "'"; "2"].

(** The twelve tokens the canvas component has a case for (its [moves]
    array and its buttons). *)
Definition componentMoves : list string :=
  ["R"; "R'"; "L"; "L'"; "U"; "U'"; "D"; "D'"; "F"; "F'"; "B"; "B'"].

(** The steps [solveCube] chooses from, and their first letters. *)
Definition cannedMoves : list Move :=
  ["F R U R' U' F'"; "R U R' U'"; "B U B' U'";
   "R U R' F' R U R' U' R' F R2 U' R'"; "U R2 U' R2 U'"; "U2 R2 U2 R2 U2"].

Definition firstLetters (l : list SolutionStep) : list Move :=
  map (fun step => charAt 0 (move step)) l.

(** The six steps by name, and an optional step. *)
Definition pick (b : bool) (step : SolutionStep) : list SolutionStep :=
  if b then [step] else [].

Definition stepF : SolutionStep :=
  mkStep "F R U R' U' F'" "Orient front-top edge" "Edge Orientation".
Definition stepR : SolutionStep :=
  mkStep "R U R' U'" "Orient right-top edge" "Edge Orientation".
Definition stepB : SolutionStep :=
  mkStep "B U B' U'" "Orient back-top edge" "Edge Orientation".
Definition stepT : SolutionStep :=
  mkStep "R U R' F' R U R' U' R' F R2 U' R'" "Position corners for Phase 2"
         "Corner Positioning".
Definition stepC : SolutionStep :=
  mkStep "U R2 U' R2 U'" "Permute corners (Phase 2)" "Phase 2 Corners".
Definition stepE : SolutionStep :=
  mkStep "U2 R2 U2 R2 U2" "Permute edges (Phase 2)" "Phase 2 Edges".

(** [undoLastMove()] called [n] times in a row, with what each call
    returned. *)
Fixpoint undoTimes (n : nat) (this : CubeStateManager.Manager)
  : CubeStateManager.Manager * list (Result bool) :=
  match n with
  | O => (this, [])
  | S n' =>
    let (this1, r) := CubeStateManager.undoLastMove this in
    let (this2, rs) := undoTimes n' this1 in
    (this2, r :: rs)
  end.

(** A token has no space in it. *)
Fixpoint noSpace (s : string) : bool :=
  match s with
  | EmptyString => true
  | String c rest => negb (Ascii.eqb c " ") && noSpace rest
  end.




(* ------------------------------------------------------------------ *)
(** ** Move engine: shape of a move *)

Ltac destruct_state s :=
  destruct s as [[ [[? ? ?] [? ? ?] [? ? ?]] [[? ? ?] [? ? ?] [? ? ?]]
                   [[? ? ?] [? ? ?] [? ? ?]] [[? ? ?] [? ? ?] [? ? ?]]
                   [[? ? ?] [? ? ?] [? ? ?]] [[? ? ?] [? ? ?] [? ? ?]] ]].

Lemma faceKey_keyName (k : FaceKey) : faceKey (keyName k) = Some k.
Proof. destruct k; reflexivity. Qed.

Lemma faceKey_Some (face : string) (k : FaceKey) :
  faceKey face = Some k -> face = keyName k.
Proof.
  unfold faceKey.
  repeat match goal with
         | |- context [String.eqb face ?x] =>
           destruct (String.eqb_spec face x) as [-> | _];
           [intros [= <-]; reflexivity | ]
         end.
  discriminate.
Qed.

Lemma faceKey_None (face : string) :
  faceKey face = None <-> ~ In face baseFaces.
Proof.
  split.
  - intros H Hin. unfold baseFaces in Hin. apply in_map_iff in Hin.
    destruct Hin as [k [<- _]]. rewrite faceKey_keyName in H. discriminate.
  - intros H. destruct (faceKey face) as [k|] eqn:E; [|reflexivity].
    exfalso. apply H. apply faceKey_Some in E. subst face.
    unfold baseFaces. apply in_map. destruct k; simpl; tauto.
Qed.

(** A quarter turn of an existing face never raises. *)
Lemma rotateFace_total (s : CubeState) (k : FaceKey) :
  exists s', rotateFace s (keyName k) = Ok s'.
Proof. unfold rotateFace. rewrite faceKey_keyName. eexists. reflexivity. Qed.

Lemma rotateFace_unknown (s : CubeState) (face : Face) :
  faceKey face = None -> rotateFace s face = Throw TypeError.
Proof. intros H. unfold rotateFace. rewrite H. reflexivity. Qed.

Lemma rotateTimes_add (a b : nat) (s : CubeState) (face : Face) :
  rotateTimes (a + b) s face
  = (s' <- rotateTimes a s face ;; rotateTimes b s' face).
Proof.
  revert s. induction a as [|a IH]; intros s; simpl; [reflexivity|].
  destruct (rotateFace s face) as [s1|e]; simpl; [apply IH | reflexivity].
Qed.

(** Four quarter turns of a face are the identity. *)
Lemma rotateTimes_four (s : CubeState) (k : FaceKey) :
  rotateTimes 4 s (keyName k) = Ok s.
Proof. destruct_state s. destruct k; reflexivity. Qed.

(** One quarter turn keeps the centres and permutes the facelets. *)
Lemma rotateFace_invariants (s : CubeState) (k : FaceKey) :
  exists s', rotateFace s (keyName k) = Ok s'
             /\ centers s' = centers s
             /\ forall c, countColor c s' = countColor c s.
Proof.
  destruct_state s.
  destruct k;
    (eexists; split; [vm_compute; reflexivity | split; [reflexivity | ]]);
    intros col; unfold countColor;
    cbn [facelets flat_map keys grid faces U D L R F B row_to_list
         x0 x1 x2 app map list_sum fold_right];
    lia.
Qed.

Lemma rotateTimes_invariants (n : nat) (s : CubeState) (k : FaceKey) :
  exists s', rotateTimes n s (keyName k) = Ok s'
             /\ centers s' = centers s
             /\ forall c, countColor c s' = countColor c s.
Proof.
  revert s. induction n as [|n IH]; intros s.
  - exists s. repeat split; reflexivity.
  - destruct (rotateFace_invariants s k) as [s1 [H1 [Hc1 Hn1]]].
    destruct (IH s1) as [s2 [H2 [Hc2 Hn2]]].
    exists s2. simpl. rewrite H1. simpl. rewrite H2.
    repeat split.
    + congruence.
    + intros c. rewrite Hn2. apply Hn1.
Qed.

Ltac shape_with k n :=
  exists k, n; split; [lia | split; intros s; vm_compute; reflexivity].

Ltac shape_of_move :=
  match goal with
  | |- context [applyMove _ ?m] =>
    let f := eval vm_compute in (faceKey (charAt 0 m)) in
    let r := eval vm_compute in (rotationsOf (slice 1 m)) in
    match f with Some ?k => shape_with k r end
  end.

(** Each of the 18 tokens is [n] quarter turns of one face, 1 <= n <= 3, and
    [getInverseMove] maps it to the token of [4 - n] quarter turns. *)
Lemma possibleMoves_shape (m : Move) :
  In m possibleMoves ->
  exists k n,
    1 <= n <= 3
    /\ (forall s, applyMove s m = rotateTimes n s (keyName k))
    /\ (forall s, applyMove s (CubeStateManager.getInverseMove m)
                  = rotateTimes (4 - n) s (keyName k)).
Proof.
  unfold possibleMoves. simpl.
  intros H.
  repeat (destruct H as [<- | H]; [shape_of_move | ]).
  contradiction.
Qed.

(* ------------------------------------------------------------------ *)
(** ** Move engine: the claims *)

(** C2.  For every cube state and each of the 18 moves, [applyMove] returns
    a state whose six centre facelets are those of the input and in which
    every colour occurs as often, over the 54 facelets, as in the input. *)
Theorem applyMove_preserves_centers_and_counts (s : CubeState) (m : Move) :
  In m possibleMoves ->
  exists s', applyMove s m = Ok s'
             /\ centers s' = centers s
             /\ forall c, countColor c s' = countColor c s.
Proof.
  intros Hm.
  destruct (possibleMoves_shape Hm) as [k [n [_ [Happ _]]]].
  rewrite Happ. apply rotateTimes_invariants.
Qed.

Lemma applyMove_preserves_centers_and_counts_witness :
  In "F'" possibleMoves
  /\ exists s', applyMove SOLVED_STATE "F'" = Ok s'
                /\ centers s' = centers SOLVED_STATE
                /\ forall c, countColor c s' = countColor c SOLVED_STATE.
Proof.
  split.
  - simpl. tauto.
  - apply (@applyMove_preserves_centers_and_counts SOLVED_STATE "F'").
    simpl. tauto.
Defined.

(** C3.  For every cube state [s] and every move [m] of the 18-move
    alphabet, applying [m] and then [getInverseMove m] gives back [s]. *)
Theorem applyMove_inverse_roundtrip (s : CubeState) (m : Move) :
  In m possibleMoves ->
  (s' <- applyMove s m ;;
   applyMove s' (CubeStateManager.getInverseMove m)) = Ok s.
Proof.
  intros Hm.
  destruct (possibleMoves_shape Hm) as [k [n [Hn [Happ Hinv]]]].
  rewrite Happ.
  replace (bindR (rotateTimes n s (keyName k))
                 (fun s' => applyMove s' (CubeStateManager.getInverseMove m)))
    with (s' <- rotateTimes n s (keyName k) ;;
          rotateTimes (4 - n) s' (keyName k)).
  - rewrite <- rotateTimes_add.
    replace (n + (4 - n)) with 4 by lia.
    apply rotateTimes_four.
  - destruct (rotateTimes n s (keyName k)) as [s1|e]; simpl;
      [symmetry; apply Hinv | reflexivity].
Qed.

Lemma applyMove_inverse_roundtrip_witness :
  In "U2" possibleMoves
  /\ (s' <- applyMove upDownExchanged "U2" ;;
      applyMove s' (CubeStateManager.getInverseMove "U2"))
     = Ok upDownExchanged.
Proof.
  split.
  - simpl. tauto.
  - apply (@applyMove_inverse_roundtrip upDownExchanged "U2"). simpl. tauto.
Defined.

(** The inverse is as the claim describes it: X to X', X' to X, X2 to X2. *)
Lemma getInverseMove_table (k : FaceKey) :
  CubeStateManager.getInverseMove (keyName k) = (keyName k ++ "'")%string
  /\ CubeStateManager.getInverseMove (keyName k ++ "'")%string = keyName k
  /\ CubeStateManager.getInverseMove (keyName k ++ "2")%string
     = (keyName k ++ "2")%string.
Proof. destruct k; repeat split; reflexivity. Qed.

Lemma rotationsOf_positive (modifier : string) :
  exists n, rotationsOf modifier = S n.
Proof.
  unfold rotationsOf.
  destruct (modifier =? "'"); [exists 2; reflexivity|].
  destruct (modifier =? "2"); [exists 1 | exists 0]; reflexivity.
Qed.

Lemma rotationsOf_other (modifier : string) :
  modifier <> "'" -> modifier <> "2" -> rotationsOf modifier = 1.
Proof.
  intros H1 H2. unfold rotationsOf.
  destruct (String.eqb_spec modifier "'"); [contradiction|].
  destruct (String.eqb_spec modifier "2"); [contradiction|].
  reflexivity.
Qed.

(** C5 (as the code has it).  A token whose face character is not one of
    U, D, L, R, F, B makes [applyMove] raise a TypeError, and no state is
    returned.  A token with one of the six face characters and a suffix
    other than ' and 2 is not rejected: it is applied as the clockwise
    quarter turn of that face. *)
Theorem applyMove_unrecognised_token (s : CubeState) (token : Move) :
  (~ In (charAt 0 token) baseFaces -> applyMove s token = Throw TypeError)
  /\ (In (charAt 0 token) baseFaces ->
      slice 1 token <> "'" -> slice 1 token <> "2" ->
      applyMove s token = applyMove s (charAt 0 token)).
Proof.
  split.
  - intros H. apply faceKey_None in H.
    unfold applyMove.
    destruct (rotationsOf_positive (slice 1 token)) as [n ->].
    simpl. rewrite (rotateFace_unknown s _ H). reflexivity.
  - intros Hin H1 H2. unfold applyMove.
    rewrite (rotationsOf_other H1 H2).
    unfold baseFaces in Hin. apply in_map_iff in Hin.
    destruct Hin as [k [<- _]]. destruct k; reflexivity.
Qed.

Lemma applyMove_unrecognised_token_witness :
  applyMove SOLVED_STATE "X2" = Throw TypeError
  /\ applyMove SOLVED_STATE "R U R' U'" = applyMove SOLVED_STATE "R".
Proof.
  split.
  - apply (proj1 (applyMove_unrecognised_token SOLVED_STATE "X2")).
    intro H. unfold baseFaces in H. simpl in H.
    repeat (destruct H as [H | H]; [discriminate H|]). exact H.
  - apply (proj2 (applyMove_unrecognised_token SOLVED_STATE "R U R' U'")).
    + unfold baseFaces. simpl. tauto.
    + discriminate.
    + discriminate.
Defined.

(** C5, the claim as stated fails: the token R3 (face R, suffix 3) is not
    rejected; [applyMove] returns the state the move R returns, which is
    not the input state. *)
Lemma applyMove_bad_modifier_returns_state :
  exists s', applyMove SOLVED_STATE "R3" = Ok s'
             /\ applyMove SOLVED_STATE "R" = Ok s'
             /\ s' <> SOLVED_STATE.
Proof.
  eexists. split; [vm_compute; reflexivity|].
  split; [vm_compute; reflexivity | discriminate].
Qed.

Lemma faceKey_None_eqb (face : Face) :
  faceKey face = None ->
  (face =? "R") = false /\ (face =? "U") = false /\ (face =? "F") = false
  /\ (face =? "L") = false /\ (face =? "D") = false
  /\ (face =? "B") = false.
Proof.
  unfold faceKey.
  destruct (face =? "U"); [discriminate|].
  destruct (face =? "D"); [discriminate|].
  destruct (face =? "L"); [discriminate|].
  destruct (face =? "R"); [discriminate|].
  destruct (face =? "F"); [discriminate|].
  destruct (face =? "B"); [discriminate|].
  intros _. repeat split; reflexivity.
Qed.

(** The [default] branch of [rotateAdjacentFaces] (warn, change nothing) is
    never reached from [applyMove]: [rotateFace] raises first. *)
Lemma rotateAdjacentFaces_default_unreachable (s : CubeState) (face : Face) :
  faceKey face = None ->
  rotateAdjacentFaces s face = s /\ rotateFace s face = Throw TypeError.
Proof.
  intros H. split; [|apply rotateFace_unknown; exact H].
  destruct (faceKey_None_eqb face H) as [HR [HU [HF [HL [HD HB]]]]].
  unfold rotateAdjacentFaces.
  rewrite HR, HU, HF, HL, HD, HB. reflexivity.
Qed.

(** C9.  For every cube state and every base face X: in the solver, the
    move X' gives the state of three successive moves X and the move X2 the
    state of two; in the canvas component, whose X' cases are written out as
    inverse permutations, the move X' gives the state of three successive
    moves X as well. *)
Theorem counterclockwise_is_three_and_double_is_two (k : FaceKey) :
  (forall s : CubeState,
      applyMove s (keyName k ++ "'")%string
      = (s1 <- applyMove s (keyName k) ;;
         s2 <- applyMove s1 (keyName k) ;;
         applyMove s2 (keyName k)))
  /\ (forall s : CubeState,
      applyMove s (keyName k ++ "2")%string
      = (s1 <- applyMove s (keyName k) ;; applyMove s1 (keyName k)))
  /\ (forall t : RubiksCube3D.CubeState,
      RubiksCube3D.applyMove (keyName k ++ "'")%string t
      = RubiksCube3D.applyMove (keyName k)
          (RubiksCube3D.applyMove (keyName k)
             (RubiksCube3D.applyMove (keyName k) t))).
Proof.
  destruct k; (split; [|split]); intros s; vm_compute; reflexivity.
Qed.

(* ------------------------------------------------------------------ *)
(** ** Session manager: the claims *)

Lemma last_snoc (A : Type) (l : list A) (x d : A) : last (l ++ [x]) d = x.
Proof.
  induction l as [|a l IH]; [reflexivity|].
  simpl. destruct (l ++ [x]) eqn:E; [|exact IH].
  destruct l; discriminate E.
Qed.

Lemma removelast_snoc (A : Type) (l : list A) (x : A) :
  removelast (l ++ [x]) = l.
Proof.
  induction l as [|a l IH]; [reflexivity|].
  simpl. destruct (l ++ [x]) eqn:E; [destruct l; discriminate E|].
  rewrite IH. reflexivity.
Qed.

Lemma length_snoc_nonzero (A : Type) (l : list A) (x : A) :
  (length (l ++ [x]) =? 0)%nat = false.
Proof. rewrite length_app. simpl. apply Nat.eqb_neq. lia. Qed.

Lemma quarter_then_three_quarters (s : CubeState) (k : FaceKey) :
  (s' <- rotateTimes 1 s (keyName k) ;; rotateTimes 3 s' (keyName k)) = Ok s.
Proof.
  rewrite <- rotateTimes_add. apply rotateTimes_four.
Qed.

(** C8.  From any manager object, [applyMove("R")] followed by
    [undoLastMove()] returns [true] and leaves the object as it was before
    the move: the same cube state and the same move history (the move that
    was pushed is popped, and its inverse is applied without being pushed). *)
Theorem applyMove_R_then_undoLastMove (this : CubeStateManager.Manager) :
  CubeStateManager.andThen (CubeStateManager.applyMove "R")
                           CubeStateManager.undoLastMove this
  = (this, (Ok tt, Ok true)).
Proof.
  destruct this as [s h q].
  unfold CubeStateManager.andThen, CubeStateManager.applyMove.
  cbn [CubeStateManager.currentState CubeStateManager.moveHistory
       CubeStateManager.scrambleSequence].
  pose proof (quarter_then_three_quarters s kR) as Hrt.
  change (rotateTimes 1 s (keyName kR)) with (applyMove s "R") in Hrt.
  destruct (applyMove s "R") as [s1|e] eqn:E1; [|discriminate Hrt].
  cbn [bindR] in Hrt.
  change (rotateTimes 3 s1 (keyName kR)) with (applyMove s1 "R'") in Hrt.
  unfold CubeStateManager.undoLastMove.
  cbn [CubeStateManager.currentState CubeStateManager.moveHistory
       CubeStateManager.scrambleSequence].
  rewrite length_snoc_nonzero, last_snoc, removelast_snoc.
  change (CubeStateManager.getInverseMove "R") with "R'".
  rewrite Hrt. reflexivity.
Qed.

(** C10.  On a manager whose move history is empty, [undoLastMove()]
    returns [false] and leaves the object, so its cube state and its move
    history, unchanged. *)
Theorem undoLastMove_empty_history (this : CubeStateManager.Manager) :
  CubeStateManager.moveHistory this = [] ->
  CubeStateManager.undoLastMove this = (this, Ok false).
Proof.
  intros H. unfold CubeStateManager.undoLastMove. rewrite H. reflexivity.
Qed.

Lemma undoLastMove_empty_history_witness :
  CubeStateManager.moveHistory CubeStateManager.constructor = []
  /\ CubeStateManager.undoLastMove CubeStateManager.constructor
     = (CubeStateManager.constructor, Ok false).
Proof.
  split.
  - reflexivity.
  - apply (@undoLastMove_empty_history CubeStateManager.constructor).
    reflexivity.
Defined.

(* ------------------------------------------------------------------ *)
(** ** Solver: the claims *)

Lemma kociembaAlgorithm_logs_start (s : CubeState) :
  In LogSolverStart (fst (kociembaAlgorithm s)).
Proof.
  unfold kociembaAlgorithm.
  unfold bindW at 1. cbn [log].
  match goal with
  | |- context [let (l', r) := ?x in _] => destruct x as [l' r]
  end.
  simpl. left. reflexivity.
Qed.

(** C7.  [solveCube] on the solved state returns an empty step list and
    [totalMoves] 0, and its console output has the line of [solveCube] only:
    the two-phase search, which always logs its own start, was not entered. *)
Theorem solveCube_solved_is_empty (elapsed : nat) :
  exists (log : list LogEvent) (sol : SolutionResult),
    solveCube elapsed createSolvedCube = (log, Ok sol)
    /\ steps sol = []
    /\ totalMoves sol = 0
    /\ solutionTime sol = 0
    /\ log = [LogStartTwoPhase]
    /\ ~ In LogSolverStart log
    /\ forall s, In LogSolverStart (fst (kociembaAlgorithm s)).
Proof.
  eexists. eexists.
  split; [vm_compute; reflexivity|].
  repeat split.
  - intros [H | []]. discriminate H.
  - apply kociembaAlgorithm_logs_start.
Qed.

(** C1, evaluated at a failing input.  For the scramble R L U D F B (three
    times) R L, a state [scrambleCube(20)] produces: [solveCube] returns five
    steps (so at most 30), and replaying their [move] fields with
    [applyMove] ends in a state that is not the solved state and that
    [isSolved] itself rejects. *)
Theorem solveCube_does_not_solve_scramble (elapsed : nat) :
  exists (st : CubeState) (ms : list Move)
         (log : list LogEvent) (sol : SolutionResult) (final : CubeState),
    scrambleCube 20 draws20 = Returns (st, ms)
    /\ solveCube elapsed st = (log, Ok sol)
    /\ length (steps sol) = 5
    /\ applySteps st (steps sol) = Ok final
    /\ final <> SOLVED_STATE
    /\ isSolved final = false.
Proof.
  do 5 eexists.
  split; [vm_compute; reflexivity|].
  split; [vm_compute; reflexivity|].
  split; [reflexivity|].
  split; [vm_compute; reflexivity|].
  split; [discriminate | vm_compute; reflexivity].
Qed.

(* ------------------------------------------------------------------ *)
(** ** Scrambler: the claim *)

Lemma applyMove_total (s : CubeState) (m : Move) :
  In m possibleMoves -> exists s', applyMove s m = Ok s'.
Proof.
  intros Hm.
  destruct (possibleMoves_shape Hm) as [k [n [_ [Happ _]]]].
  destruct (rotateTimes_invariants n s k) as [s' [H _]].
  exists s'. rewrite Happ. exact H.
Qed.

Lemma applyMoves_snoc (s0 s : CubeState) (ms : list Move) (m : Move) :
  applyMoves s0 ms = Ok s ->
  applyMoves s0 (ms ++ [m]) = applyMove s m.
Proof.
  revert s0. induction ms as [|a ms IH]; intros s0 H; simpl in *.
  - injection H as ->. destruct (applyMove s m); reflexivity.
  - destruct (applyMove s0 a) as [s1|e]; simpl in *; [|discriminate H].
    apply IH. exact H.
Qed.

Lemma noRepeatedFace_snoc (ms : list Move) (m : Move) :
  noRepeatedFace ms ->
  (ms = [] \/ charAt 0 (last ms "") <> charAt 0 m) ->
  noRepeatedFace (ms ++ [m]).
Proof.
  induction ms as [|a ms IH]; intros Hn Hl; [exact I|].
  destruct ms as [|b ms].
  - simpl. split; [|exact I].
    destruct Hl as [Hl | Hl]; [discriminate Hl | exact Hl].
  - change ((a :: b :: ms) ++ [m]) with (a :: (b :: ms) ++ [m]).
    change ((b :: ms) ++ [m]) with (b :: ms ++ [m]).
    destruct Hn as [Hab Hn]. split; [exact Hab|].
    apply IH; [exact Hn|].
    right. destruct Hl as [Hl | Hl]; [discriminate Hl | exact Hl].
Qed.

Lemma scrambleLoop_spec (draws : list nat) :
  Forall (fun d => d < 18) draws ->
  forall (remaining : nat) (state : CubeState) (scramble : list Move),
    Forall (fun m => In m possibleMoves) scramble ->
    noRepeatedFace scramble ->
    applyMoves createSolvedCube scramble = Ok state ->
    match scrambleLoop remaining state scramble draws with
    | Returns (st, ms) =>
      length ms = length scramble + remaining
      /\ Forall (fun m => In m possibleMoves) ms
      /\ noRepeatedFace ms
      /\ applyMoves createSolvedCube ms = Ok st
    | Raises _ => False
    | Starved => length (acceptedMoves scramble draws) < remaining
    end.
Proof.
  induction 1 as [|d draws Hd Hds IH]; intros remaining state scramble Hin Hno Hst.
  - destruct remaining as [|r]; simpl.
    + repeat split; [lia | exact Hin | exact Hno | exact Hst].
    + lia.
  - destruct remaining as [|r].
    + simpl. repeat split; [lia | exact Hin | exact Hno | exact Hst].
    + cbn [scrambleLoop acceptedMoves].
      destruct (nth_error possibleMoves d) as [move|] eqn:En.
      2:{ apply nth_error_None in En. simpl in En. lia. }
      assert (Hmove : In move possibleMoves)
        by (eapply nth_error_In; exact En).
      destruct ((0 <? length scramble)%nat
                && isOppositeMove (last scramble "") move) eqn:Erej.
      * apply IH; assumption.
      * destruct (applyMove_total state Hmove) as [state' Happ].
        rewrite Happ.
        assert (Hno' : noRepeatedFace (scramble ++ [move])).
        { apply noRepeatedFace_snoc; [exact Hno|].
          apply andb_false_iff in Erej. destruct Erej as [E | E].
          - left. apply Nat.ltb_ge in E.
            destruct scramble; [reflexivity | simpl in E; lia].
          - right. unfold isOppositeMove in E.
            apply String.eqb_neq in E. exact E. }
        assert (Hin' : Forall (fun m => In m possibleMoves)
                              (scramble ++ [move])).
        { apply Forall_app. split; [exact Hin|].
          constructor; [exact Hmove | constructor]. }
        assert (Hst' : applyMoves createSolvedCube (scramble ++ [move])
                       = Ok state').
        { rewrite (@applyMoves_snoc _ _ _ move Hst). exact Happ. }
        specialize (IH r state' (scramble ++ [move]) Hin' Hno' Hst').
        destruct (scrambleLoop r state' (scramble ++ [move]) draws)
          as [[st ms]|e|]; [|exact IH|simpl; lia].
        rewrite length_app in IH. simpl in IH.
        destruct IH as [Hl Hrest]. split; [lia | exact Hrest].
Qed.

(** C6.  Fed draws of [Math.floor(Math.random() * 18)], [scrambleCube(n)]
    never raises, and it returns unless the draws run out, which happens
    only when fewer than [n] of them pass the rejection loop.  What it
    returns is a list of exactly [n] moves of the 18-move alphabet, none with
    the base face of the move before it, and the state reached by applying
    these moves in order from the solved state; for [n = 0] that is the
    solved state and the empty list. *)
Theorem scrambleCube_spec (n : nat) (draws : list nat) :
  Forall (fun d => d < 18) draws ->
  match scrambleCube n draws with
  | Returns (st, ms) =>
    length ms = n
    /\ Forall (fun m => In m possibleMoves) ms
    /\ noRepeatedFace ms
    /\ applyMoves createSolvedCube ms = Ok st
    /\ (n = 0 -> st = createSolvedCube /\ ms = [])
  | Raises _ => False
  | Starved => length (acceptedMoves [] draws) < n
  end.
Proof.
  intros Hd.
  pose proof (@scrambleLoop_spec draws Hd n createSolvedCube []
                (Forall_nil _) I eq_refl) as H.
  unfold scrambleCube.
  destruct (scrambleLoop n createSolvedCube [] draws) as [[st ms]|e|] eqn:E;
    [|exact H|exact H].
  destruct H as [Hl [Hin [Hno Hst]]].
  repeat split; try assumption.
  - subst n. destruct draws; simpl in E; injection E as <- _; reflexivity.
  - subst n. destruct draws; simpl in E; injection E as _ <-; reflexivity.
Qed.

Lemma scrambleCube_spec_witness :
  Forall (fun d => d < 18) [0; 1; 3]
  /\ match scrambleCube 2 [0; 1; 3] with
     | Returns (st, ms) =>
       length ms = 2
       /\ Forall (fun m => In m possibleMoves) ms
       /\ noRepeatedFace ms
       /\ applyMoves createSolvedCube ms = Ok st
       /\ (2 = 0 -> st = createSolvedCube /\ ms = [])
     | Raises _ => False
     | Starved => length (acceptedMoves [] [0; 1; 3]) < 2
     end.
Proof.
  assert (H : Forall (fun d => d < 18) [0; 1; 3])
    by (repeat constructor; lia).
  split.
  - exact H.
  - exact (@scrambleCube_spec 2 [0; 1; 3] H).
Defined.

(* ------------------------------------------------------------------ *)
(** ** The two solved checks *)

Lemma Color_eqb_eq (a b : Color) : Color_eqb a b = true <-> a = b.
Proof.
  unfold Color_eqb. destruct (Color_eq_dec a b); split; intros H;
    try reflexivity; try assumption; try discriminate; contradiction.
Qed.

Lemma putColor_inj (c1 c2 : Color) (k1 k2 : string) :
  putColor c1 k1 = putColor c2 k2 -> c1 = c2 /\ k1 = k2.
Proof.
  destruct c1, c2; cbv [putColor dq colorName append ascii_of_nat
                        ascii_of_pos Pos.of_succ_nat Pos.succ shift];
    intros H; first [discriminate H | (injection H as H; split; [reflexivity | exact H])].
Qed.

Lemma String_cons_inj (a : ascii) (s t : string) :
  String a s = String a t -> s = t.
Proof. intros H. injection H as H. exact H. Qed.

Lemma putRow_inj (r1 r2 : Row Color) (k1 k2 : string) :
  putRow r1 k1 = putRow r2 k2 -> r1 = r2 /\ k1 = k2.
Proof.
  destruct r1 as [a1 b1 c1], r2 as [a2 b2 c2].
  unfold putRow. cbn [x0 x1 x2 append]. intros H.
  apply String_cons_inj in H. apply putColor_inj in H as [-> H].
  apply String_cons_inj in H. apply putColor_inj in H as [-> H].
  apply String_cons_inj in H. apply putColor_inj in H as [-> H].
  apply String_cons_inj in H. split; [reflexivity | exact H].
Qed.

Lemma putGrid_inj (g1 g2 : Grid) (k1 k2 : string) :
  putGrid g1 k1 = putGrid g2 k2 -> g1 = g2 /\ k1 = k2.
Proof.
  destruct g1 as [a1 b1 c1], g2 as [a2 b2 c2].
  unfold putGrid. cbn [x0 x1 x2 append]. intros H.
  apply String_cons_inj in H. apply putRow_inj in H as [-> H].
  apply String_cons_inj in H. apply putRow_inj in H as [-> H].
  apply String_cons_inj in H. apply putRow_inj in H as [-> H].
  apply String_cons_inj in H. split; [reflexivity | exact H].
Qed.

Lemma putKey_inj (name k1 k2 : string) :
  putKey name k1 = putKey name k2 -> k1 = k2.
Proof.
  unfold putKey, dq. cbn [append]. intros H. apply String_cons_inj in H.
  induction name as [|a name IH]; cbn [append] in H.
  - apply String_cons_inj in H. apply String_cons_inj in H. exact H.
  - apply String_cons_inj in H. apply IH. exact H.
Qed.

(** The serialisation determines the state. *)
Lemma JSON_stringify_inj (s1 s2 : CubeState) :
  JSON_stringify s1 = JSON_stringify s2 -> s1 = s2.
Proof.
  destruct s1 as [[u1 d1 l1 r1 f1 b1]], s2 as [[u2 d2 l2 r2 f2 b2]].
  unfold JSON_stringify, putFaces. cbn [faces U D L R F B append].
  intros H.
  apply String_cons_inj in H. apply putKey_inj in H.
  apply String_cons_inj in H. apply putKey_inj in H. apply putGrid_inj in H as [-> H].
  apply String_cons_inj in H. apply putKey_inj in H. apply putGrid_inj in H as [-> H].
  apply String_cons_inj in H. apply putKey_inj in H. apply putGrid_inj in H as [-> H].
  apply String_cons_inj in H. apply putKey_inj in H. apply putGrid_inj in H as [-> H].
  apply String_cons_inj in H. apply putKey_inj in H. apply putGrid_inj in H as [-> H].
  apply String_cons_inj in H. apply putKey_inj in H. apply putGrid_inj in H as [-> H].
  reflexivity.
Qed.

Lemma In_keys (k : FaceKey) : In k keys.
Proof. destruct k; simpl; tauto. Qed.

Lemma In_indices (i : Ix) : In i indices.
Proof. destruct i; simpl; tauto. Qed.

(** The solver's check is exactly: every face is of the colour of its own
    centre. *)
Lemma isSolved_iff_facesUniform (s : CubeState) :
  isSolved s = true <-> facesUniform s.
Proof.
  unfold isSolved, facesUniform. split.
  - intros H k r c.
    rewrite forallb_forall in H. specialize (H k (In_keys k)).
    rewrite forallb_forall in H. specialize (H r (In_indices r)).
    rewrite forallb_forall in H. specialize (H c (In_indices c)).
    apply Color_eqb_eq in H. exact H.
  - intros H.
    apply forallb_forall. intros k _.
    apply forallb_forall. intros r _.
    apply forallb_forall. intros c _.
    apply Color_eqb_eq. apply (H k r c).
Qed.

Ltac all_cells H k :=
  pose proof (H k i0 i0); pose proof (H k i0 i1); pose proof (H k i0 i2);
  pose proof (H k i1 i0); pose proof (H k i1 i2);
  pose proof (H k i2 i0); pose proof (H k i2 i1); pose proof (H k i2 i2).

Lemma facesUniform_centers_solved (s : CubeState) :
  facesUniform s -> centers s = centers SOLVED_STATE -> s = SOLVED_STATE.
Proof.
  intros H Hc. destruct_state s.
  all_cells H kU; all_cells H kD; all_cells H kL;
    all_cells H kR; all_cells H kF; all_cells H kB.
  clear H. cbv in Hc. injection Hc as -> -> -> -> -> ->.
  cbv [getc getr get grid faces U D L R F B x0 x1 x2] in *.
  subst. reflexivity.
Qed.

Lemma Ok_inj (A : Type) (a b : A) : Ok a = Ok b -> a = b.
Proof. intros H. injection H as H. exact H. Qed.

Lemma manager_isSolved_value (s : CubeState) (history scr : list Move) :
  snd (CubeStateManager.isSolved (CubeStateManager.mkManager s history scr))
  = Ok (JSON_stringify s =? JSON_stringify createSolvedCube).
Proof. reflexivity. Qed.

(** C4, the claim as stated fails for the solver's check: the state with
    the colours of U and D exchanged passes it and is not the solved
    template. *)
Lemma isSolved_accepts_exchanged_faces :
  isSolved upDownExchanged = true /\ upDownExchanged <> SOLVED_STATE.
Proof. split; [reflexivity | discriminate]. Qed.

(** C4 (as the code has it).  [CubeStateManager.isSolved()] on a manager
    holding [s] returns true exactly when [s] is the solved template.  The
    [isSolved] that gates [solveCube] returns true exactly when every face
    has the colour of its own centre all over; for a state with the
    template's six centres that is being the solved template. *)
Theorem isSolved_checks (s : CubeState) :
  (forall history scr,
      snd (CubeStateManager.isSolved
             (CubeStateManager.mkManager s history scr)) = Ok true
      <-> s = SOLVED_STATE)
  /\ (isSolved s = true <-> facesUniform s)
  /\ (centers s = centers SOLVED_STATE ->
      (isSolved s = true <-> s = SOLVED_STATE)).
Proof.
  split; [|split].
  - intros history scr.
    rewrite manager_isSolved_value. split.
    + intros H. apply Ok_inj in H. apply String.eqb_eq in H.
      apply JSON_stringify_inj. exact H.
    + intros ->. unfold createSolvedCube.
      rewrite String.eqb_refl. reflexivity.
  - apply isSolved_iff_facesUniform.
  - intros Hc. split.
    + intros H. apply isSolved_iff_facesUniform in H.
      apply facesUniform_centers_solved; assumption.
    + intros ->. reflexivity.
Qed.

Lemma isSolved_checks_witness :
  (snd (CubeStateManager.isSolved
          (CubeStateManager.mkManager upDownExchanged ["U"] [])) = Ok true
   <-> upDownExchanged = SOLVED_STATE)
  /\ (isSolved upDownExchanged = true <-> facesUniform upDownExchanged).
Proof.
  split.
  - exact (proj1 (isSolved_checks upDownExchanged) ["U"] []).
  - exact (proj1 (proj2 (isSolved_checks upDownExchanged))).
Defined.


(* ------------------------------------------------------------------ *)
(** ** Further properties of the move engine *)

Lemma rotateTimes_chain (n m : nat) (s s' : CubeState) (face : Face) :
  rotateTimes n s face = Ok s' ->
  rotateTimes (n + m) s face = rotateTimes m s' face.
Proof.
  intros H. rewrite rotateTimes_add, H. reflexivity.
Qed.

Lemma rotateTimes_unknown (n : nat) (s : CubeState) (face : Face) :
  faceKey face = None -> rotateTimes (S n) s face = Throw TypeError.
Proof.
  intros H. simpl. rewrite (@rotateFace_unknown s _ H). reflexivity.
Qed.

(** A token [applyMove] accepts has one of the six face characters. *)
Lemma applyMove_Ok_face (s s' : CubeState) (token : Move) :
  applyMove s token = Ok s' ->
  exists k, charAt 0 token = keyName k.
Proof.
  unfold applyMove. intros H.
  destruct (faceKey (charAt 0 token)) as [k|] eqn:E.
  - exists k. apply faceKey_Some. exact E.
  - destruct (rotationsOf_positive (slice 1 token)) as [n Hn].
    rewrite Hn, (@rotateTimes_unknown n s _ E) in H. discriminate H.
Qed.

Lemma inverse_rotations (token : Move) (k : FaceKey) :
  charAt 0 token = keyName k ->
  exists n m,
    n + m = 4
    /\ (forall s, applyMove s token = rotateTimes n s (keyName k))
    /\ (forall s, applyMove s (CubeStateManager.getInverseMove token)
                  = rotateTimes m s (keyName k)).
Proof.
  intros Hf.
  unfold CubeStateManager.getInverseMove, applyMove. rewrite Hf.
  unfold rotationsOf at 1.
  destruct (String.eqb_spec (slice 1 token) "'") as [E1 | E1].
  - exists 3, 1. split; [reflexivity|]. split; intros s; [reflexivity|].
    destruct k; reflexivity.
  - destruct (String.eqb_spec (slice 1 token) "2") as [E2 | E2].
    + exists 2, 2. split; [reflexivity|]. split; intros s; [reflexivity|].
      rewrite Hf, E2. reflexivity.
    + exists 1, 3. split; [reflexivity|]. split; intros s; [reflexivity|].
      destruct k; reflexivity.
Qed.

Lemma applyMove_inverse_any_token_aux (s s' : CubeState) (token : Move) :
  applyMove s token = Ok s' ->
  applyMove s' (CubeStateManager.getInverseMove token) = Ok s.
Proof.
  intros H.
  destruct (@applyMove_Ok_face _ _ _ H) as [k Hk].
  destruct (@inverse_rotations _ _ Hk) as [n [m [Hnm [Ha Hi]]]].
  rewrite Hi. rewrite Ha in H.
  rewrite <- (@rotateTimes_chain _ m _ _ _ H), Hnm.
  apply rotateTimes_four.
Qed.

(** X1.  Whatever the token, if [applyMove] accepts it then applying
    [getInverseMove] of the token to the result gives the first state back:
    undo is exact also for tokens outside the 18-move alphabet. *)
Theorem applyMove_inverse_any_token (s s' : CubeState) (token : Move) :
  applyMove s token = Ok s' ->
  applyMove s' (CubeStateManager.getInverseMove token) = Ok s.
Proof. apply applyMove_inverse_any_token_aux. Qed.

Lemma applyMove_inverse_any_token_witness :
  exists s',
    applyMove SOLVED_STATE "F3" = Ok s'
    /\ applyMove s' (CubeStateManager.getInverseMove "F3") = Ok SOLVED_STATE.
Proof.
  destruct (applyMove SOLVED_STATE "F3") as [s'|e] eqn:E;
    [|vm_compute in E; discriminate E].
  exists s'. split.
  - reflexivity.
  - exact (@applyMove_inverse_any_token SOLVED_STATE s' "F3" E).
Defined.

Lemma applyMove_Ok_invariants (s s' : CubeState) (token : Move) :
  applyMove s token = Ok s' ->
  centers s' = centers s /\ forall c, countColor c s' = countColor c s.
Proof.
  intros H.
  destruct (@applyMove_Ok_face _ _ _ H) as [k Hk].
  unfold applyMove in H. rewrite Hk in H.
  destruct (rotateTimes_invariants (rotationsOf (slice 1 token)) s k)
    as [s2 [H2 Hinv]].
  rewrite H2 in H. injection H as <-. exact Hinv.
Qed.

Lemma applyMoves_preserves_centers_and_counts_aux
      (ms : list Move) (s0 s : CubeState) :
  applyMoves s0 ms = Ok s ->
  centers s = centers s0 /\ forall c, countColor c s = countColor c s0.
Proof.
  revert s0. induction ms as [|m ms IH]; intros s0 H; simpl in H.
  - injection H as <-. split; reflexivity.
  - destruct (applyMove s0 m) as [s1|e] eqn:E; simpl in H; [|discriminate H].
    destruct (@applyMove_Ok_invariants _ _ _ E) as [Hc1 Hn1].
    destruct (IH s1 H) as [Hc Hn]. split.
    + congruence.
    + intros c. rewrite Hn. apply Hn1.
Qed.

(** X2.  Along any replay that [applyMoves] completes, from any state and
    with any tokens, the six centres stay and every colour keeps its number
    of facelets. *)
Theorem applyMoves_preserves_centers_and_counts
        (ms : list Move) (s0 s : CubeState) :
  applyMoves s0 ms = Ok s ->
  centers s = centers s0 /\ forall c, countColor c s = countColor c s0.
Proof. apply applyMoves_preserves_centers_and_counts_aux. Qed.

Lemma applyMoves_preserves_centers_and_counts_witness :
  exists s,
    applyMoves upDownExchanged ["R"; "U9"; "B'"] = Ok s
    /\ centers s = centers upDownExchanged
    /\ forall c, countColor c s = countColor c upDownExchanged.
Proof.
  destruct (applyMoves upDownExchanged ["R"; "U9"; "B'"]) as [s|e] eqn:E;
    [|vm_compute in E; discriminate E].
  exists s. split.
  - reflexivity.
  - exact (@applyMoves_preserves_centers_and_counts
             ["R"; "U9"; "B'"] upDownExchanged s E).
Defined.

(** X3.  On every state reached from the solved cube by a completed replay,
    the solver's face-uniformity check and deep equality with the solved
    template agree. *)
Theorem isSolved_on_reachable (ms : list Move) (s : CubeState) :
  applyMoves createSolvedCube ms = Ok s ->
  (isSolved s = true <-> s = SOLVED_STATE).
Proof.
  intros H.
  destruct (@applyMoves_preserves_centers_and_counts_aux ms _ _ H) as [Hc _].
  split.
  - intros Hs. apply isSolved_iff_facesUniform in Hs.
    apply facesUniform_centers_solved; assumption.
  - intros ->. reflexivity.
Qed.

Lemma isSolved_on_reachable_witness :
  exists s,
    applyMoves createSolvedCube ["R"; "R'"] = Ok s
    /\ (isSolved s = true <-> s = SOLVED_STATE).
Proof.
  destruct (applyMoves createSolvedCube ["R"; "R'"]) as [s|e] eqn:E;
    [|vm_compute in E; discriminate E].
  exists s. split.
  - reflexivity.
  - exact (@isSolved_on_reachable ["R"; "R'"] s E).
Defined.

(** X4.  Turns of opposite faces commute: for a face X, the face Y across
    the cube and any two modifiers, the move on X followed by the move on Y
    gives the state of the move on Y followed by the move on X. *)
Theorem opposite_faces_commute (s : CubeState) (k : FaceKey) (a b : string) :
  In a modifiers -> In b modifiers ->
  applyMoves s [(keyName k ++ a)%string; (keyName (opposite k) ++ b)%string]
  = applyMoves s [(keyName (opposite k) ++ b)%string; (keyName k ++ a)%string].
Proof.
  unfold modifiers. simpl In. intros Ha Hb.
  destruct Ha as [<- | [<- | [<- | []]]];
    destruct Hb as [<- | [<- | [<- | []]]];
    destruct k; vm_compute; reflexivity.
Qed.

Lemma opposite_faces_commute_witness :
  In "'" modifiers /\ In "2" modifiers
  /\ applyMoves upDownExchanged ["L'"; "R2"]
     = applyMoves upDownExchanged ["R2"; "L'"].
Proof.
  assert (Ha : In "'" modifiers) by (simpl; tauto).
  assert (Hb : In "2" modifiers) by (simpl; tauto).
  split; [exact Ha|]. split; [exact Hb|].
  exact (@opposite_faces_commute upDownExchanged kL "'" "2" Ha Hb).
Defined.

(** X5.  The solver's move engine and the canvas component's move table
    agree: for each of the twelve tokens the component has a case for,
    translating the solver's result to the component's layout (U is top, D
    is bottom, square 3*row+col) gives the component's result on the
    translated state. *)
Theorem component_agrees_with_solver (s : CubeState) (m : Move) :
  In m componentMoves ->
  exists s', applyMove s m = Ok s'
             /\ RubiksCube3D.ofSolver s'
                = RubiksCube3D.applyMove m (RubiksCube3D.ofSolver s).
Proof.
  unfold componentMoves. simpl In. intros H.
  repeat (destruct H as [<- | H];
          [eexists; split; [vm_compute; reflexivity | vm_compute; reflexivity]
          | ]).
  contradiction.
Qed.

Lemma component_agrees_with_solver_witness :
  In "B'" componentMoves
  /\ exists s', applyMove SOLVED_STATE "B'" = Ok s'
                /\ RubiksCube3D.ofSolver s'
                   = RubiksCube3D.applyMove
                       "B'" (RubiksCube3D.ofSolver SOLVED_STATE).
Proof.
  assert (H : In "B'" componentMoves) by (simpl; tauto).
  split; [exact H|].
  exact (@component_agrees_with_solver SOLVED_STATE "B'" H).
Defined.

Lemma componentMoves_eqb (move : string) :
  ~ In move componentMoves ->
  Forall (fun m => (move =? m) = false) componentMoves.
Proof.
  intros H. apply Forall_forall. intros m Hm.
  apply String.eqb_neq. intros ->. exact (H Hm).
Qed.

(** X6.  The component's [applyMove] has no case for any other token: such
    a token (a double turn like R2, or a step of the solver) leaves the
    state exactly as it is, without an error. *)
Theorem component_ignores_other_tokens
        (move : string) (t : RubiksCube3D.CubeState) :
  ~ In move componentMoves -> RubiksCube3D.applyMove move t = t.
Proof.
  intros H. apply componentMoves_eqb in H.
  unfold componentMoves in H.
  repeat match goal with
         | H : Forall _ (_ :: _) |- _ =>
           let E := fresh "E" in
           let H' := fresh "H" in
           apply Forall_cons_iff in H; destruct H as [E H']
         end.
  unfold RubiksCube3D.applyMove.
  rewrite E, E0, E1, E2, E3, E4, E5, E6, E7, E8, E9, E10.
  reflexivity.
Qed.

Lemma component_ignores_other_tokens_witness :
  RubiksCube3D.applyMove "R2" RubiksCube3D.SOLVED_CUBE
  = RubiksCube3D.SOLVED_CUBE
  /\ RubiksCube3D.applyMove "U R2 U' R2 U'" RubiksCube3D.SOLVED_CUBE
     = RubiksCube3D.SOLVED_CUBE.
Proof.
  split.
  - apply (@component_ignores_other_tokens "R2" RubiksCube3D.SOLVED_CUBE).
    intro H. simpl in H.
    repeat (destruct H as [H | H]; [discriminate H|]). exact H.
  - apply (@component_ignores_other_tokens "U R2 U' R2 U'"
                                           RubiksCube3D.SOLVED_CUBE).
    intro H. simpl in H.
    repeat (destruct H as [H | H]; [discriminate H|]). exact H.
Defined.

(* ------------------------------------------------------------------ *)
(** ** Further properties of the solver *)

Lemma orientEdgesReal_shape (s : CubeState) :
  exists b1 b2 b3,
    orientEdgesReal s = pick b1 stepF ++ pick b2 stepR ++ pick b3 stepB.
Proof.
  unfold orientEdgesReal, findMisorientedEdges.
  generalize (negb (Color_eqb (getc kF i0 i1 s) (getc kF i1 i1 s))
              || negb (Color_eqb (getc kU i2 i1 s) (getc kU i1 i1 s))).
  generalize (negb (Color_eqb (getc kR i0 i1 s) (getc kR i1 i1 s))
              || negb (Color_eqb (getc kU i1 i2 s) (getc kU i1 i1 s))).
  generalize (negb (Color_eqb (getc kB i0 i1 s) (getc kB i1 i1 s))
              || negb (Color_eqb (getc kU i0 i1 s) (getc kU i1 i1 s))).
  intros c3 c2 c1. exists c1, c2, c3.
  destruct c1, c2, c3; reflexivity.
Qed.

Lemma positionCornersReal_shape (s : CubeState) :
  exists b4, positionCornersReal s = pick b4 stepT.
Proof.
  unfold positionCornersReal, findWrongPositionCorners.
  match goal with
  | |- context [negb ?c] => generalize c
  end.
  intros c. exists (negb c). destruct c; reflexivity.
Qed.

(** Phase 1 returns a sublist, in order, of its four candidate steps. *)
Lemma kociembaPhase1Real_shape (s : CubeState) :
  exists b1 b2 b3 b4,
    kociembaPhase1Real s (analyzeCubeState s)
    = ([LogPhase1Start;
        LogPhase1Complete
          (length (pick b1 stepF ++ pick b2 stepR ++ pick b3 stepB
                   ++ pick b4 stepT))],
       Ok (pick b1 stepF ++ pick b2 stepR ++ pick b3 stepB ++ pick b4 stepT)).
Proof.
  unfold kociembaPhase1Real, analyzeCubeState.
  cbn [edgesOriented cornersPositioned].
  destruct (orientEdgesReal_shape s) as [b1 [b2 [b3 ->]]].
  destruct (positionCornersReal_shape s) as [b4 ->].
  generalize (checkEdgeOrientation s), (checkCornerPositions s).
  intros e c.
  destruct e, c; cbn [negb].
  - exists false, false, false, false. reflexivity.
  - exists false, false, false, b4. destruct b4; reflexivity.
  - exists b1, b2, b3, false. destruct b1, b2, b3; reflexivity.
  - exists b1, b2, b3, b4. destruct b1, b2, b3, b4; reflexivity.
Qed.

Lemma kociembaPhase2Real_shape (s : CubeState) :
  kociembaPhase2Real s (analyzeCubeState s)
  = ([LogPhase2Start;
      LogPhase2Complete
        (length (if isSolved s then [] else [stepC; stepE]))],
     Ok (if isSolved s then [] else [stepC; stepE])).
Proof.
  unfold kociembaPhase2Real, analyzeCubeState.
  cbn [cornersOriented edgesPermuted].
  unfold checkCornerOrientation, checkEdgePermutation.
  generalize (isSolved s). intros b. destruct b; reflexivity.
Qed.

(** A step of the solver is replayed as the clockwise quarter turn of its
    first letter, and the replay does not raise. *)
Lemma cannedMove_replay (m : Move) (s : CubeState) :
  In m cannedMoves ->
  applyMove s m = applyMove s (charAt 0 m)
  /\ In (charAt 0 m) ["F"; "R"; "B"; "U"]
  /\ exists s', applyMove s m = Ok s'.
Proof.
  unfold cannedMoves. simpl In. intros H.
  repeat (destruct H as [<- | H];
          [split; [vm_compute; reflexivity|];
           split; [vm_compute; tauto|];
           eexists; vm_compute; reflexivity | ]).
  contradiction.
Qed.

Lemma applySteps_canned (l : list SolutionStep) (s : CubeState) :
  Forall (fun step => In (move step) cannedMoves) l ->
  applySteps s l = applyMoves s (firstLetters l)
  /\ exists s', applySteps s l = Ok s'.
Proof.
  revert s. induction l as [|step l IH]; intros s H.
  - split; [reflexivity | exists s; reflexivity].
  - apply Forall_cons_iff in H. destruct H as [Hm Hl].
    destruct (@cannedMove_replay (move step) s Hm) as [E1 [_ [s1 E2]]].
    simpl. rewrite <- E1, E2. simpl. apply IH. exact Hl.
Qed.

Lemma pick_canned (b : bool) (step : SolutionStep) :
  In (move step) cannedMoves ->
  Forall (fun step => In (move step) cannedMoves) (pick b step).
Proof.
  intros H. destruct b; simpl; [constructor; [exact H | constructor]
                               | constructor].
Qed.

Lemma phase1_canned (b1 b2 b3 b4 : bool) :
  Forall (fun step => In (move step) cannedMoves)
         (pick b1 stepF ++ pick b2 stepR ++ pick b3 stepB ++ pick b4 stepT).
Proof.
  apply Forall_app; split; [apply pick_canned; simpl; tauto|].
  apply Forall_app; split; [apply pick_canned; simpl; tauto|].
  apply Forall_app; split; apply pick_canned; simpl; tauto.
Qed.

(** What [kociembaAlgorithm] returns, for every state. *)
Lemma kociembaAlgorithm_shape (s : CubeState) :
  exists b1 b2 b3 b4 s1 log,
    applySteps s (pick b1 stepF ++ pick b2 stepR ++ pick b3 stepB
                  ++ pick b4 stepT) = Ok s1
    /\ kociembaAlgorithm s
       = (log,
          Ok (let p1 := pick b1 stepF ++ pick b2 stepR ++ pick b3 stepB
                        ++ pick b4 stepT in
              let p2 := if isSolved s1 then [] else [stepC; stepE] in
              mkKociemba (p1 ++ p2) (length (p1 ++ p2))
                (Qmax 8 (inject_Z (Z.of_nat (length (p1 ++ p2))) * (4 # 10)))
                Easy "Kociemba" (length p1) (length p2))).
Proof.
  destruct (kociembaPhase1Real_shape s) as [b1 [b2 [b3 [b4 H1]]]].
  destruct (applySteps_canned s (phase1_canned b1 b2 b3 b4))
    as [_ [s1 Happ]].
  exists b1, b2, b3, b4, s1.
  unfold kociembaAlgorithm.
  cbn [bindW log]. rewrite H1.
  cbn [bindW liftR]. rewrite Happ.
  cbn [bindW]. rewrite kociembaPhase2Real_shape.
  clear H1.
  destruct b1, b2, b3, b4; destruct (isSolved s1);
    (eexists; split; reflexivity).
Qed.

Lemma solveCube_unsolved (elapsed : nat) (s : CubeState) :
  isSolved s = false ->
  exists b1 b2 b3 b4 s1 log,
    applySteps s (pick b1 stepF ++ pick b2 stepR ++ pick b3 stepB
                  ++ pick b4 stepT) = Ok s1
    /\ solveCube elapsed s
       = (log,
          Ok (let p1 := pick b1 stepF ++ pick b2 stepR ++ pick b3 stepB
                        ++ pick b4 stepT in
              let p2 := if isSolved s1 then [] else [stepC; stepE] in
              mkSolution (p1 ++ p2) (length (p1 ++ p2))
                (Qmax 8 (inject_Z (Z.of_nat (length (p1 ++ p2))) * (4 # 10)))
                Easy "Kociemba" (length p1) (length p2) elapsed)).
Proof.
  intros E.
  destruct (kociembaAlgorithm_shape s)
    as [b1 [b2 [b3 [b4 [s1 [out [Happ Hk]]]]]]].
  exists b1, b2, b3, b4, s1.
  unfold solveCube. cbn [bindW log]. rewrite E, Hk.
  eexists. split; [exact Happ | reflexivity].
Qed.

(** X7.  For every state, [solveCube] returns without raising, with at
    most six steps; [totalMoves] is the number of steps and the sum of the
    two phase counts, the difficulty is Easy, and the step list is empty
    exactly when [isSolved] accepts the input state. *)
Theorem solveCube_total_and_bounded (elapsed : nat) (s : CubeState) :
  exists log sol,
    solveCube elapsed s = (log, Ok sol)
    /\ length (steps sol) <= 6
    /\ totalMoves sol = length (steps sol)
    /\ totalMoves sol = phase1Moves sol + phase2Moves sol
    /\ difficulty sol = Easy
    /\ (steps sol = [] <-> isSolved s = true).
Proof.
  destruct (isSolved s) eqn:E.
  - unfold solveCube. cbn [bindW log]. rewrite E.
    eexists. eexists. split; [reflexivity|].
    cbn [steps totalMoves phase1Moves phase2Moves difficulty length].
    repeat split; try reflexivity; lia.
  - destruct (solveCube_unsolved elapsed s E)
      as [b1 [b2 [b3 [b4 [s1 [out [Happ Hs]]]]]]].
    exists out. eexists. split; [exact Hs|].
    cbn [steps totalMoves phase1Moves phase2Moves difficulty].
    split; [destruct b1, b2, b3, b4; destruct (isSolved s1); simpl; lia|].
    split; [reflexivity|].
    split; [apply length_app|].
    split; [reflexivity|].
    split; [|discriminate].
    intros Hnil. destruct b1, b2, b3, b4; try discriminate Hnil.
    simpl in Happ. injection Happ as <-. rewrite E in Hnil.
    discriminate Hnil.
Qed.




Lemma filter_length_forallb (A : Type) (f : A -> bool) (l : list A) :
  length (filter f l) = length l <-> forallb f l = true.
Proof.
  induction l as [|a l IH]; simpl; [tauto|].
  pose proof (filter_length_le f l) as Hle.
  destruct (f a); simpl.
  - rewrite <- IH. split; intros H; lia.
  - split; intros H; [lia | discriminate H].
Qed.

(** X9.  The analysis counts at most six solved faces, and it counts six
    exactly when [isSolved] accepts the state. *)
Theorem countSolvedFaces_six (s : CubeState) :
  countSolvedFaces s <= 6
  /\ (countSolvedFaces s = 6 <-> isSolved s = true).
Proof.
  unfold countSolvedFaces, isSolved. split.
  - apply (filter_length_le _ keys).
  - apply (filter_length_forallb _ keys).
Qed.

(* ------------------------------------------------------------------ *)
(** ** Further properties of the scrambler *)

Lemma scrambleLoop_moves (draws : list nat) :
  forall (remaining : nat) (state : CubeState) (scramble : list Move)
         (st : CubeState) (ms : list Move),
    scrambleLoop remaining state scramble draws = Returns (st, ms) ->
    ms = scramble ++ firstn remaining (acceptedMoves scramble draws).
Proof.
  induction draws as [|d draws IH]; intros remaining state scramble st ms H.
  - destruct remaining; simpl in H; [|discriminate H].
    injection H as _ <-. simpl. rewrite app_nil_r. reflexivity.
  - destruct remaining as [|r].
    + simpl in H. injection H as _ <-. simpl. rewrite app_nil_r. reflexivity.
    + cbn [scrambleLoop acceptedMoves] in *.
      destruct (nth_error possibleMoves d) as [move|]; [|discriminate H].
      destruct ((0 <? length scramble)%nat
                && isOppositeMove (last scramble "") move).
      * apply IH in H. exact H.
      * destruct (applyMove state move) as [state'|e]; [|discriminate H].
        apply IH in H. rewrite H, <- app_assoc. reflexivity.
Qed.

(** X10.  When at least [n] of the draws pass the rejection loop,
    [scrambleCube(n)] returns, its move list is exactly the first [n]
    accepted draws, and later draws are not looked at. *)
Theorem scrambleCube_returns_first_accepted (n : nat) (draws : list nat) :
  Forall (fun d => d < 18) draws ->
  n <= length (acceptedMoves [] draws) ->
  exists st,
    scrambleCube n draws = Returns (st, firstn n (acceptedMoves [] draws))
    /\ applyMoves createSolvedCube (firstn n (acceptedMoves [] draws))
       = Ok st.
Proof.
  intros Hd Hn.
  pose proof (@scrambleLoop_spec draws Hd n createSolvedCube []
                (Forall_nil _) I eq_refl) as Hspec.
  unfold scrambleCube.
  destruct (scrambleLoop n createSolvedCube [] draws) as [[st ms]|e|] eqn:E;
    [|contradiction|lia].
  apply scrambleLoop_moves in E. simpl in E. subst ms.
  exists st. split; [reflexivity|]. apply Hspec.
Qed.

Lemma scrambleCube_returns_first_accepted_witness :
  Forall (fun d => d < 18) [0; 2; 5; 4; 17]
  /\ 2 <= length (acceptedMoves [] [0; 2; 5; 4; 17])
  /\ exists st,
       scrambleCube 2 [0; 2; 5; 4; 17]
       = Returns (st, firstn 2 (acceptedMoves [] [0; 2; 5; 4; 17]))
       /\ applyMoves createSolvedCube
                     (firstn 2 (acceptedMoves [] [0; 2; 5; 4; 17])) = Ok st.
Proof.
  assert (H1 : Forall (fun d => d < 18) [0; 2; 5; 4; 17])
    by (repeat constructor; lia).
  assert (H2 : 2 <= length (acceptedMoves [] [0; 2; 5; 4; 17]))
    by (vm_compute; lia).
  split; [exact H1|]. split; [exact H2|].
  exact (@scrambleCube_returns_first_accepted 2 [0; 2; 5; 4; 17] H1 H2).
Defined.

(* ------------------------------------------------------------------ *)
(** ** Further properties of the session manager *)

Lemma applyMove_accepts_face (s : CubeState) (move : Move) :
  In (charAt 0 move) baseFaces -> exists s', applyMove s move = Ok s'.
Proof.
  intros H. unfold baseFaces in H. apply in_map_iff in H.
  destruct H as [k [Hk _]]. symmetry in Hk.
  destruct (@inverse_rotations move k Hk) as [n [_ [_ [Ha _]]]].
  destruct (rotateTimes_invariants n s k) as [s' [H _]].
  exists s'. rewrite Ha. exact H.
Qed.

(** X11.  A move whose face character is not one of the six is refused by
    the manager with the engine's TypeError, and the manager is left as it
    was: nothing is pushed on the move history. *)
Theorem manager_applyMove_refused
        (move : Move) (this : CubeStateManager.Manager) :
  ~ In (charAt 0 move) baseFaces ->
  CubeStateManager.applyMove move this = (this, Throw TypeError).
Proof.
  intros H. apply faceKey_None in H.
  unfold CubeStateManager.applyMove, applyMove.
  destruct (rotationsOf_positive (slice 1 move)) as [n ->].
  rewrite (@rotateTimes_unknown n _ _ H). reflexivity.
Qed.

Lemma manager_applyMove_refused_witness :
  CubeStateManager.applyMove "M2" CubeStateManager.constructor
  = (CubeStateManager.constructor, Throw TypeError).
Proof.
  apply (@manager_applyMove_refused "M2" CubeStateManager.constructor).
  intro H. unfold baseFaces in H. simpl in H.
  repeat (destruct H as [H | H]; [discriminate H|]). exact H.
Defined.

Lemma undoLastMove_snoc (s s1 : CubeState) (h q : list Move) (m : Move) :
  applyMove s1 m = Ok s ->
  CubeStateManager.undoLastMove (CubeStateManager.mkManager s (h ++ [m]) q)
  = (CubeStateManager.mkManager s1 h q, Ok true).
Proof.
  intros H. apply applyMove_inverse_any_token_aux in H.
  unfold CubeStateManager.undoLastMove.
  cbn [CubeStateManager.currentState CubeStateManager.moveHistory
       CubeStateManager.scrambleSequence].
  rewrite length_snoc_nonzero, last_snoc, removelast_snoc, H.
  reflexivity.
Qed.

(** X12.  Whatever accepted token is applied through the manager, also one
    outside the 18-move alphabet, [undoLastMove()] right after it returns
    [true] and gives back the manager as it was: state, history and scramble
    sequence. *)
Theorem manager_applyMove_then_undo
        (move : Move) (this : CubeStateManager.Manager) :
  In (charAt 0 move) baseFaces ->
  CubeStateManager.andThen (CubeStateManager.applyMove move)
                           CubeStateManager.undoLastMove this
  = (this, (Ok tt, Ok true)).
Proof.
  intros H. destruct this as [s h q].
  destruct (applyMove_accepts_face s move H) as [s' Happ].
  unfold CubeStateManager.andThen, CubeStateManager.applyMove.
  cbn [CubeStateManager.currentState CubeStateManager.moveHistory
       CubeStateManager.scrambleSequence].
  rewrite Happ.
  rewrite (@undoLastMove_snoc s' s h q move Happ). reflexivity.
Qed.

Lemma manager_applyMove_then_undo_witness :
  In (charAt 0 "D'x") baseFaces
  /\ CubeStateManager.andThen (CubeStateManager.applyMove "D'x")
       CubeStateManager.undoLastMove CubeStateManager.constructor
     = (CubeStateManager.constructor, (Ok tt, Ok true)).
Proof.
  assert (H : In (charAt 0 "D'x") baseFaces) by (vm_compute; tauto).
  split; [exact H|].
  exact (@manager_applyMove_then_undo "D'x" CubeStateManager.constructor H).
Defined.

Lemma applyMoves_snoc_inv (ms : list Move) (m : Move) (s0 s : CubeState) :
  applyMoves s0 (ms ++ [m]) = Ok s ->
  exists s1, applyMoves s0 ms = Ok s1 /\ applyMove s1 m = Ok s.
Proof.
  revert s0. induction ms as [|a ms IH]; intros s0 H; simpl in *.
  - exists s0. split; [reflexivity|].
    destruct (applyMove s0 m); simpl in H; [exact H | discriminate H].
  - destruct (applyMove s0 a) as [s1|e]; simpl in *; [|discriminate H].
    apply IH. exact H.
Qed.

Lemma undo_whole_history_aux
      (h : list Move) (s0 s : CubeState) (q : list Move) :
  applyMoves s0 h = Ok s ->
  undoTimes (length h) (CubeStateManager.mkManager s h q)
  = (CubeStateManager.mkManager s0 [] q, repeat (Ok true) (length h)).
Proof.
  revert s. induction h as [|m h IH] using rev_ind; intros s H.
  - simpl in H. injection H as <-. reflexivity.
  - apply applyMoves_snoc_inv in H. destruct H as [s1 [H1 H2]].
    rewrite length_app. simpl length.
    replace (length h + 1) with (S (length h)) by lia.
    cbn [undoTimes repeat].
    rewrite (@undoLastMove_snoc s s1 h q m H2).
    rewrite (IH s1 H1). reflexivity.
Qed.

(** X13.  If the move history of a manager is a replay that leads from a
    state [s0] to the current state, then as many [undoLastMove()] calls as
    the history is long all return [true] and end in state [s0] with an
    empty history. *)
Theorem undo_whole_history
        (h : list Move) (s0 s : CubeState) (q : list Move) :
  applyMoves s0 h = Ok s ->
  undoTimes (length h) (CubeStateManager.mkManager s h q)
  = (CubeStateManager.mkManager s0 [] q, repeat (Ok true) (length h)).
Proof. apply undo_whole_history_aux. Qed.

Lemma undo_whole_history_witness :
  exists s,
    applyMoves upDownExchanged ["R"; "U2"; "F'"] = Ok s
    /\ undoTimes 3 (CubeStateManager.mkManager s ["R"; "U2"; "F'"] ["L"])
       = (CubeStateManager.mkManager upDownExchanged [] ["L"],
          [Ok true; Ok true; Ok true]).
Proof.
  destruct (applyMoves upDownExchanged ["R"; "U2"; "F'"]) as [s|e] eqn:E;
    [|vm_compute in E; discriminate E].
  exists s. split; [reflexivity|].
  exact (@undo_whole_history ["R"; "U2"; "F'"] upDownExchanged s ["L"] E).
Defined.

(** X14.  After [scramble(n)] has returned, the manager's move history and
    scramble sequence are the [n] moves returned, and [n] calls of
    [undoLastMove()] bring the cube back to the solved state with an empty
    history. *)
Theorem scramble_then_undo_all
        (n : nat) (draws : list nat)
        (this this' : CubeStateManager.Manager) (ms : list Move) :
  Forall (fun d => d < 18) draws ->
  CubeStateManager.scramble n draws this = (this', Returns ms) ->
  CubeStateManager.moveHistory this' = ms
  /\ CubeStateManager.scrambleSequence this' = ms
  /\ length ms = n
  /\ undoTimes n this'
     = (CubeStateManager.mkManager createSolvedCube [] ms,
        repeat (Ok true) n).
Proof.
  intros Hd H.
  pose proof (@scrambleLoop_spec draws Hd n createSolvedCube []
                (Forall_nil _) I eq_refl) as Hspec.
  unfold CubeStateManager.scramble, scrambleCube in H.
  destruct (scrambleLoop n createSolvedCube [] draws) as [[st l]|e|];
    [|discriminate H|discriminate H].
  injection H as <- <-.
  destruct Hspec as [Hl [_ [_ Hst]]]. simpl in Hl.
  cbn [CubeStateManager.moveHistory CubeStateManager.scrambleSequence].
  repeat split; try assumption.
  rewrite <- Hl. apply undo_whole_history_aux. exact Hst.
Qed.

Lemma scramble_then_undo_all_witness :
  Forall (fun d => d < 18) [0; 3]
  /\ exists this' ms,
       CubeStateManager.scramble 2 [0; 3] CubeStateManager.constructor
       = (this', Returns ms)
       /\ CubeStateManager.moveHistory this' = ms
       /\ CubeStateManager.scrambleSequence this' = ms
       /\ length ms = 2
       /\ undoTimes 2 this'
          = (CubeStateManager.mkManager createSolvedCube [] ms,
             repeat (Ok true) 2).
Proof.
  assert (Hd : Forall (fun d => d < 18) [0; 3]) by (repeat constructor; lia).
  split; [exact Hd|].
  destruct (CubeStateManager.scramble 2 [0; 3] CubeStateManager.constructor)
    as [this' [ms|e|]] eqn:E;
    [|vm_compute in E; discriminate E|vm_compute in E; discriminate E].
  exists this', ms. split; [reflexivity|].
  exact (@scramble_then_undo_all 2 [0; 3] CubeStateManager.constructor
                                 this' ms Hd E).
Defined.

(** X15.  [getInverseMove] maps the 18-move alphabet into itself and is an
    involution on it. *)
Theorem getInverseMove_involution (m : Move) :
  In m possibleMoves ->
  In (CubeStateManager.getInverseMove m) possibleMoves
  /\ CubeStateManager.getInverseMove (CubeStateManager.getInverseMove m) = m.
Proof.
  unfold possibleMoves. intros H. simpl in H.
  repeat (destruct H as [<- | H];
          [split; [vm_compute; tauto | reflexivity] | ]).
  contradiction.
Qed.

Lemma getInverseMove_involution_witness :
  In "B'" possibleMoves
  /\ In (CubeStateManager.getInverseMove "B'") possibleMoves
  /\ CubeStateManager.getInverseMove (CubeStateManager.getInverseMove "B'")
     = "B'".
Proof.
  assert (H : In "B'" possibleMoves) by (simpl; tauto).
  split; [exact H|].
  exact (@getInverseMove_involution "B'" H).
Defined.

(* ------------------------------------------------------------------ *)
(** ** The validator *)

Lemma bump_colorName (counts : ComputerVision.Counts) (a c : Color) :
  ComputerVision.bump counts (colorName a) (colorName c)
  = counts (colorName c) + indicator c a.
Proof.
  unfold ComputerVision.bump, indicator.
  destruct a, c; simpl; lia.
Qed.

Lemma fold_bump (l : list Color) (init : ComputerVision.Counts) (c : Color) :
  fold_left (fun counts color => ComputerVision.bump counts (colorName color))
            l init (colorName c)
  = init (colorName c) + list_sum (map (indicator c) l).
Proof.
  revert init. induction l as [|a l IH]; intros init; simpl.
  - lia.
  - rewrite IH, bump_colorName. lia.
Qed.

(** The dictionary built by the nested loops holds, under a colour's name,
    the number of facelets of that colour. *)
Lemma countColors_countColor (s : CubeState) (c : Color) :
  ComputerVision.countColors s (colorName c) = countColor c s.
Proof.
  destruct_state s.
  exact (fold_bump (facelets (mkCube (mkFaces
           (mkRow (mkRow x3 x4 x5) (mkRow x6 x7 x8) (mkRow x9 x10 x11))
           (mkRow (mkRow x12 x13 x14) (mkRow x15 x16 x17) (mkRow x18 x19 x20))
           (mkRow (mkRow x21 x22 x23) (mkRow x24 x25 x26) (mkRow x27 x28 x29))
           (mkRow (mkRow x30 x31 x32) (mkRow x33 x34 x35) (mkRow x36 x37 x38))
           (mkRow (mkRow x39 x40 x41) (mkRow x42 x43 x44) (mkRow x45 x46 x47))
           (mkRow (mkRow x48 x49 x50) (mkRow x51 x52 x53) (mkRow x54 x55 x56)))))
         ComputerVision.noCounts c).
Qed.

Lemma fold_errors_nil (A : Type) (bad : A -> bool) (msg : A -> string)
      (l : list A) (init : list string) :
  fold_left (fun errors x => if bad x then errors ++ [msg x] else errors)
            l init = []
  <-> init = [] /\ forallb (fun x => negb (bad x)) l = true.
Proof.
  revert init. induction l as [|a l IH]; intros init; simpl.
  - tauto.
  - rewrite IH. destruct (bad a); simpl.
    + split.
      * intros [H _]. destruct init; discriminate H.
      * intros [_ H]. discriminate H.
    + tauto.
Qed.

Lemma length_zero_nil (A : Type) (l : list A) :
  (length l =? 0)%nat = true <-> l = [].
Proof.
  destruct l; simpl; split; intros H; try reflexivity; discriminate H.
Qed.

Lemma validateCubeState_valid_iff (s : CubeState) :
  ComputerVision.isValid (ComputerVision.validateCubeState s) = true
  <-> (forall c, countColor c s = 9) /\ centers s = centers SOLVED_STATE.
Proof.
  unfold ComputerVision.validateCubeState.
  cbn [ComputerVision.isValid].
  rewrite length_zero_nil.
  rewrite (fold_errors_nil
             (fun entry => negb (Color_eqb (getc (fst entry) i1 i1 s)
                                           (snd entry)))
             (fun entry => ("Face " ++ keyName (fst entry)
                            ++ " center should be "
                            ++ colorName (snd entry) ++ ", got "
                            ++ colorName (getc (fst entry) i1 i1 s))%string)).
  rewrite (fold_errors_nil
             (fun color => negb (ComputerVision.countColors s (colorName color)
                                 =? 9)%nat)
             (fun color => ("Color " ++ colorName color ++ " appears "
                            ++ ComputerVision.showNat
                                 (ComputerVision.countColors s
                                    (colorName color))
                            ++ " times, expected 9")%string)).
  unfold ComputerVision.expectedColors, ComputerVision.expectedCenters.
  cbn [forallb fst snd].
  rewrite !negb_involutive, !andb_true_iff, !Nat.eqb_eq, !Color_eqb_eq.
  rewrite !countColors_countColor.
  unfold centers. cbn [map keys].
  split.
  - intros [[_ [Hw [Hy [Hr [Ho [Hb [Hg _]]]]]]]
            [HU [HD [HL [HR [HF [HB _]]]]]]].
    split.
    + intros c. destruct c; assumption.
    + rewrite HU, HD, HL, HR, HF, HB. reflexivity.
  - intros [Hc Hcen]. injection Hcen as HU HD HL HR HF HB.
    repeat split; auto.
Qed.

(** X16.  [validateCubeState] reports a state as valid exactly when each of
    the six colours is on nine facelets and the six centres are white (U),
    yellow (D), orange (L), red (R), green (F) and blue (B); the error list
    is then empty. *)
Theorem validateCubeState_spec (s : CubeState) :
  (ComputerVision.isValid (ComputerVision.validateCubeState s) = true
   <-> (forall c, countColor c s = 9) /\ centers s = centers SOLVED_STATE)
  /\ (ComputerVision.isValid (ComputerVision.validateCubeState s) = true
      <-> ComputerVision.errors (ComputerVision.validateCubeState s) = []).
Proof.
  split.
  - apply validateCubeState_valid_iff.
  - unfold ComputerVision.validateCubeState.
    cbn [ComputerVision.isValid ComputerVision.errors].
    apply length_zero_nil.
Qed.

(** X17.  Every state the move engine reaches from the solved cube, by any
    completed replay, passes [validateCubeState]. *)
Theorem validateCubeState_accepts_reachable (ms : list Move) (s : CubeState) :
  applyMoves createSolvedCube ms = Ok s ->
  ComputerVision.isValid (ComputerVision.validateCubeState s) = true.
Proof.
  intros H. apply validateCubeState_valid_iff.
  destruct (@applyMoves_preserves_centers_and_counts_aux ms _ _ H)
    as [Hc Hn].
  split; [|exact Hc].
  intros c. rewrite Hn. destruct c; reflexivity.
Qed.

Lemma validateCubeState_accepts_reachable_witness :
  exists s,
    applyMoves createSolvedCube ["R"; "U"; "R'"; "U'"] = Ok s
    /\ ComputerVision.isValid (ComputerVision.validateCubeState s) = true.
Proof.
  destruct (applyMoves createSolvedCube ["R"; "U"; "R'"; "U'"])
    as [s|e] eqn:E; [|vm_compute in E; discriminate E].
  exists s. split; [reflexivity|].
  exact (@validateCubeState_accepts_reachable ["R"; "U"; "R'"; "U'"] s E).
Defined.

(* ------------------------------------------------------------------ *)
(** ** Move sequences as text *)

Lemma split_noSpace (m : string) :
  noSpace m = true -> split " " m = [m].
Proof.
  induction m as [|c m IH]; simpl; intros H; [reflexivity|].
  apply andb_true_iff in H. destruct H as [Hc Hm].
  apply negb_true_iff in Hc. rewrite Hc, (IH Hm). reflexivity.
Qed.

Lemma split_token_space (m rest : string) :
  noSpace m = true ->
  split " " (m ++ String " " rest) = m :: split " " rest.
Proof.
  induction m as [|c m IH]; simpl; intros H; [reflexivity|].
  apply andb_true_iff in H. destruct H as [Hc Hm].
  apply negb_true_iff in Hc. rewrite Hc, (IH Hm). reflexivity.
Qed.

Lemma split_format (m : Move) (ms : list Move) :
  Forall (fun t => noSpace t = true) (m :: ms) ->
  split " " (formatMoveSequence (m :: ms)) = m :: ms.
Proof.
  revert m. induction ms as [|m' ms IH]; intros m H.
  - apply Forall_cons_iff in H. destruct H as [Hm _].
    unfold formatMoveSequence. simpl. apply split_noSpace. exact Hm.
  - apply Forall_cons_iff in H. destruct H as [Hm Hrest].
    unfold formatMoveSequence in *.
    change (String.concat " " (m :: m' :: ms))
      with (m ++ String " " (String.concat " " (m' :: ms)))%string.
    rewrite (@split_token_space m _ Hm), (IH m' Hrest). reflexivity.
Qed.

Lemma filter_all (A : Type) (f : A -> bool) (l : list A) :
  Forall (fun x => f x = true) l -> filter f l = l.
Proof.
  induction 1 as [|a l Ha Hl IH]; simpl; [reflexivity|].
  rewrite Ha, IH. reflexivity.
Qed.

(** X18.  Formatting a list of tokens and parsing the text gives the list
    back, provided every token is free of spaces and is not blank (it has
    a character that [trim] keeps); the empty list is formatted as the empty
    text and parsed back as the empty list. *)
Theorem parse_format_roundtrip (moves : list Move) :
  Forall (fun m => noSpace m = true
                   /\ (0 <? String.length (trim m))%nat = true) moves ->
  parseMoveSequence (formatMoveSequence moves) = moves.
Proof.
  intros H. unfold parseMoveSequence.
  destruct moves as [|m ms]; [reflexivity|].
  rewrite split_format.
  - apply filter_all. eapply Forall_impl; [|exact H].
    intros t [_ Ht]. exact Ht.
  - eapply Forall_impl; [|exact H]. intros t [Ht _]. exact Ht.
Qed.

Lemma parse_format_roundtrip_witness :
  Forall (fun m => noSpace m = true
                   /\ (0 <? String.length (trim m))%nat = true)
         ["R"; "U2"; "F'"]
  /\ parseMoveSequence (formatMoveSequence ["R"; "U2"; "F'"])
     = ["R"; "U2"; "F'"].
Proof.
  assert (H : Forall (fun m => noSpace m = true
                               /\ (0 <? String.length (trim m))%nat = true)
                     ["R"; "U2"; "F'"])
    by (repeat constructor).
  split; [exact H|].
  exact (@parse_format_roundtrip ["R"; "U2"; "F'"] H).
Defined.

Lemma possibleMoves_tokens (m : Move) :
  In m possibleMoves ->
  noSpace m = true /\ (0 <? String.length (trim m))%nat = true.
Proof.
  unfold possibleMoves. intros H. simpl in H.
  repeat (destruct H as [<- | H]; [split; reflexivity|]).
  contradiction.
Qed.

(** X19.  A scramble written out with [formatMoveSequence] is read back by
    [parseMoveSequence] move for move: the round trip is the identity on
    lists of moves of the 18-move alphabet. *)
Theorem parse_format_alphabet (moves : list Move) :
  Forall (fun m => In m possibleMoves) moves ->
  parseMoveSequence (formatMoveSequence moves) = moves.
Proof.
  intros H. unfold parseMoveSequence.
  destruct moves as [|m ms]; [reflexivity|].
  rewrite split_format.
  - apply filter_all. eapply Forall_impl; [|exact H].
    intros t Ht. apply (possibleMoves_tokens Ht).
  - eapply Forall_impl; [|exact H].
    intros t Ht. apply (possibleMoves_tokens Ht).
Qed.

Lemma parse_format_alphabet_witness :
  Forall (fun m => In m possibleMoves) ["B2"; "L'"]
  /\ parseMoveSequence (formatMoveSequence ["B2"; "L'"]) = ["B2"; "L'"].
Proof.
  assert (H : Forall (fun m => In m possibleMoves) ["B2"; "L'"])
    by (repeat constructor; simpl; tauto).
  split; [exact H|].
  exact (@parse_format_alphabet ["B2"; "L'"] H).
Defined.

Lemma split_no_separator (s : string) :
  Forall (fun t => noSpace t = true) (split " " s).
Proof.
  induction s as [|c s IH]; simpl.
  - repeat constructor.
  - destruct (Ascii.eqb c " ") eqn:E.
    + constructor; [reflexivity | exact IH].
    + destruct (split " " s) as [|h t].
      * constructor; [simpl; rewrite E; reflexivity | constructor].
      * apply Forall_cons_iff in IH. destruct IH as [Hh Ht].
        constructor; [simpl; rewrite E, Hh; reflexivity | exact Ht].
Qed.

(** X20.  Whatever the text, no token [parseMoveSequence] returns is empty
    or contains a space: runs of spaces and leading or trailing spaces
    produce no token. *)
Theorem parseMoveSequence_tokens (sequence : string) :
  Forall (fun m => m <> "" /\ noSpace m = true) (parseMoveSequence sequence).
Proof.
  unfold parseMoveSequence.
  apply Forall_forall. intros m Hm.
  apply filter_In in Hm. destruct Hm as [Hin Hkeep].
  split.
  - intros ->. discriminate Hkeep.
  - pose proof (split_no_separator sequence) as Hs.
    rewrite Forall_forall in Hs. apply Hs. exact Hin.
Qed.

(* ------------------------------------------------------------------ *)
(** ** The render projection *)




